(** * DubAI: the Coqui TTS bridge and its mock

    A shallow embedding of
      - apps/backend/src/utils/coqui_tts_bridge.py   (class CoquiTTSBridge, main)
      - src/utils/coqui_tts_bridge_mock.py           (class MockCoquiTTSBridge, main)
    and the properties of the line-delimited JSON protocol and of the
    model life cycle that the specification states about them.

    Conventions of the embedding.
      - Python values that travel through JSON are the inductive [value];
        a Python dict is an association list in insertion order.
      - Python [str] is [string]; [len], [lower], [strip], [startswith],
        [in] and [os.path.basename] are defined on it (a character is
        a code point below 256, an [ascii]).
      - bytes are integers in [0, 256).
      - Python [float] is a finite binary64 number, mantissa times a power
        of two, with round-to-nearest-even after every operation.
      - A method body is a computation in a state-and-exception monad over
        the bridge object and the world (file system, event trace, clock);
        an exception keeps the mutations made before it was raised.
      - The TTS library, torch, tempfile, the json parser, [hash] and the
        clock are collaborators, gathered in the record [Env]. *)

From Stdlib Require Import ZArith Lia Ascii.
From stdpp Require Import base option list strings gmap.

Local Open Scope Z_scope.
#[local] Set Warnings "-register-all".

(* ===================================================================== *)
(** * Python strings *)
(* ===================================================================== *)

Module PyStr.

Definition is_upper (c : ascii) : bool :=
  let n := nat_of_ascii c in (65 <=? n)%nat && (n <=? 90)%nat.

Definition lower_char (c : ascii) : ascii :=
  if is_upper c then ascii_of_nat (nat_of_ascii c + 32) else c.

(** [s.lower()] *)
Fixpoint lower (s : string) : string :=
  match s with
  | EmptyString => EmptyString
  | String c r => String (lower_char c) (lower r)
  end.

(** [s.startswith(p)] *)
Fixpoint startswith (p s : string) : bool :=
  match p, s with
  | EmptyString, _ => true
  | String a p', String b s' => if Ascii.eqb a b then startswith p' s' else false
  | String _ _, EmptyString => false
  end.

(** [sub in s] *)
Fixpoint contains (sub s : string) : bool :=
  startswith sub s ||
  match s with
  | EmptyString => false
  | String _ r => contains sub r
  end.

Definition is_slash (c : ascii) : bool := Ascii.eqb c "/"%char.

Fixpoint has_slash (s : string) : bool :=
  match s with
  | EmptyString => false
  | String c r => is_slash c || has_slash r
  end.

(** [os.path.basename(p)] (posixpath): what follows the last slash. *)
Fixpoint basename (p : string) : string :=
  match p with
  | EmptyString => EmptyString
  | String c r =>
      if has_slash r then basename r
      else if is_slash c then r else String c r
  end.

(** The characters [str.strip()] removes, those [str.isspace] holds of:
    below 256 they are tab, line feed, vertical tab, form feed, carriage
    return, the separators 28-31, the space, next line (U+0085) and the
    no-break space (U+00A0). *)
Definition is_space (c : ascii) : bool :=
  let n := nat_of_ascii c in
  ((9 <=? n)%nat && (n <=? 13)%nat) || ((28 <=? n)%nat && (n <=? 32)%nat)
  || (n =? 133)%nat || (n =? 160)%nat.

Fixpoint lstrip (s : string) : string :=
  match s with
  | EmptyString => EmptyString
  | String c r => if is_space c then lstrip r else s
  end.

Fixpoint rstrip (s : string) : string :=
  match s with
  | EmptyString => EmptyString
  | String c r =>
      match rstrip r with
      | EmptyString => if is_space c then EmptyString else String c EmptyString
      | r' => String c r'
      end
  end.

(** [s.strip()] *)
Definition strip (s : string) : string := rstrip (lstrip s).

(** Truth value of a string: [if s:] *)
Definition truthy (s : string) : bool :=
  match s with EmptyString => false | _ => true end.

Definition len (s : string) : Z := Z.of_nat (String.length s).

End PyStr.

(* ===================================================================== *)
(** * Python floats (finite binary64) *)
(* ===================================================================== *)

Module PyFloat.

(** The number [mant * 2 ^ expo]. *)
Record float64 : Type := F64 { mant : Z; expo : Z }.

(** Rounding of a non-negative [m * 2^e] to 53 significant bits, ties to
    even. Results stay in the normal range for every operand the bridge
    computes with (lengths below 2^63 and the constants below). *)
Definition round53_pos (m e : Z) : float64 :=
  let k := Z.log2 m + 1 - 53 in
  if k <=? 0 then F64 m e
  else
    let q := Z.shiftr m k in
    let r := Z.land m (Z.ones k) in
    let half := Z.shiftl 1 (k - 1) in
    let q' := if r <? half then q
              else if half <? r then q + 1
              else if Z.even q then q else q + 1 in
    F64 q' (e + k).

Definition fneg (x : float64) : float64 := F64 (- mant x) (expo x).

Definition round53 (m e : Z) : float64 :=
  if m <? 0 then fneg (round53_pos (- m) e) else round53_pos m e.

(** [float(n)] for a Python int *)
Definition of_int (n : Z) : float64 := round53 n 0.

(** [x * y] *)
Definition fmul (x y : float64) : float64 :=
  round53 (mant x * mant y) (expo x + expo y).

(** [int(x)]: truncation towards zero *)
Definition to_int (x : float64) : Z :=
  if 0 <=? expo x then mant x * 2 ^ expo x
  else Z.quot (mant x) (2 ^ (- expo x)).

Definition fcompare (x y : float64) : comparison :=
  let e := Z.min (expo x) (expo y) in
  Z.compare (mant x * 2 ^ (expo x - e)) (mant y * 2 ^ (expo y - e)).

(** [min(x, y)]: Python returns the first argument unless the second is
    strictly smaller. *)
Definition fmin (x y : float64) : float64 :=
  match fcompare y x with Lt => y | _ => x end.

(** The literals of the sources. *)
Definition f_0_1 : float64 := F64 7205759403792794 (-56).   (* 0.1  *)
Definition f_0_01 : float64 := F64 5764607523034235 (-59).  (* 0.01 *)
Definition f_0_5 : float64 := F64 1 (-1).                   (* 0.5  *)
Definition f_1_0 : float64 := F64 1 0.                      (* 1.0  *)

End PyFloat.

(* ===================================================================== *)
(** * Python values and dicts *)
(* ===================================================================== *)

Inductive value : Type :=
| VNone
| VBool (b : bool)
| VInt (n : Z)
| VFloat (x : PyFloat.float64)
| VStr (s : string)
| VList (xs : list value)
| VDict (kvs : list (string * value)).

Definition dict : Type := list (string * value).

(** [d.get(k)] *)
Fixpoint dict_lookup (k : string) (d : dict) : option value :=
  match d with
  | [] => None
  | (k', v) :: d' => if String.eqb k k' then Some v else dict_lookup k d'
  end.

(** [d.get(k, default)] *)
Definition dict_get (k : string) (default : value) (d : dict) : value :=
  match dict_lookup k d with Some v => v | None => default end.


(** Truth value of a Python value: [if v:] *)
Definition truthy (v : value) : bool :=
  match v with
  | VNone => false
  | VBool b => b
  | VInt n => negb (n =? 0)
  | VFloat x => negb (PyFloat.mant x =? 0)
  | VStr s => PyStr.truthy s
  | VList xs => match xs with [] => false | _ => true end
  | VDict kvs => match kvs with [] => false | _ => true end
  end.

Definition opt_str_value (o : option string) : value :=
  match o with None => VNone | Some s => VStr s end.

(** [type(v).__name__] *)
Definition type_name (v : value) : string :=
  match v with
  | VNone => "NoneType"
  | VBool _ => "bool"
  | VInt _ => "int"
  | VFloat _ => "float"
  | VStr _ => "str"
  | VList _ => "list"
  | VDict _ => "dict"
  end.

(** The number a value stands for in a comparison; [bool] is a subclass
    of [int], and an [int] is compared with a [float] exactly. *)
Definition number (v : value) : option PyFloat.float64 :=
  match v with
  | VBool b => Some (PyFloat.F64 (if b then 1 else 0) 0)
  | VInt n => Some (PyFloat.F64 n 0)
  | VFloat x => Some x
  | _ => None
  end.

(** [a == b] on the values of JSON: [None] equals [None] only, numbers
    compare by value, strings by their characters, lists element by
    element, dicts as mappings. *)
Fixpoint py_eq (a b : value) {struct a} : bool :=
  match a, b with
  | VNone, VNone => true
  | VStr s, VStr t => String.eqb s t
  | VList xs, VList ys =>
      (fix all2 (xs ys : list value) {struct xs} : bool :=
         match xs, ys with
         | [], [] => true
         | x :: xs', y :: ys' => py_eq x y && all2 xs' ys'
         | _, _ => false
         end) xs ys
  | VDict d, VDict d' =>
      (length d =? length d')%nat &&
      (fix all_in (d : list (string * value)) {struct d} : bool :=
         match d with
         | [] => true
         | kv :: r =>
             match dict_lookup (fst kv) d' with
             | Some v' => py_eq (snd kv) v'
             | None => false
             end && all_in r
         end) d
  | _, _ =>
      match number a, number b with
      | Some x, Some y =>
          match PyFloat.fcompare x y with Eq => true | _ => false end
      | _, _ => false
      end
  end.

(* ===================================================================== *)
(** * base64 *)
(* ===================================================================== *)

Module Base64.

Definition alphabet : string :=
  "ABCDEFGHIJKLMNOPQRSTUVWXYZabcdefghijklmnopqrstuvwxyz0123456789+/".

Definition pad : ascii := "="%char.

Definition enc6 (n : Z) : ascii :=
  match String.get (Z.to_nat n) alphabet with
  | Some c => c
  | None => pad
  end.

Definition dec6 (c : ascii) : option Z :=
  let n := Z.of_nat (nat_of_ascii c) in
  if (65 <=? n) && (n <=? 90) then Some (n - 65)
  else if (97 <=? n) && (n <=? 122) then Some (n - 71)
  else if (48 <=? n) && (n <=? 57) then Some (n + 4)
  else if n =? 43 then Some 62
  else if n =? 47 then Some 63
  else None.

(** [base64.b64encode(data).decode('utf-8')] *)
Fixpoint b64encode (data : list Z) : string :=
  match data with
  | [] => EmptyString
  | [a] =>
      String (enc6 (a / 4)) (String (enc6 (a mod 4 * 16))
        (String pad (String pad EmptyString)))
  | [a; b] =>
      String (enc6 (a / 4)) (String (enc6 (a mod 4 * 16 + b / 16))
        (String (enc6 (b mod 16 * 4)) (String pad EmptyString)))
  | a :: b :: c :: rest =>
      String (enc6 (a / 4)) (String (enc6 (a mod 4 * 16 + b / 16))
        (String (enc6 (b mod 16 * 4 + c / 64)) (String (enc6 (c mod 64))
          (b64encode rest))))
  end.

Definition is_pad (c : ascii) : bool := Ascii.eqb c pad.

(** [base64.b64decode(s)] on canonical input: groups of four symbols,
    padding only in the last group. *)
Fixpoint b64decode (s : string) : option (list Z) :=
  match s with
  | EmptyString => Some []
  | String c1 (String c2 (String c3 (String c4 rest))) =>
      if is_pad c4 then
        match rest with
        | EmptyString =>
            if is_pad c3 then
              s1 ← dec6 c1; s2 ← dec6 c2;
              Some [s1 * 4 + s2 / 16]
            else
              s1 ← dec6 c1; s2 ← dec6 c2; s3 ← dec6 c3;
              Some [s1 * 4 + s2 / 16; s2 mod 16 * 16 + s3 / 4]
        | _ => None
        end
      else
        s1 ← dec6 c1; s2 ← dec6 c2; s3 ← dec6 c3; s4 ← dec6 c4;
        tl ← b64decode rest;
        Some (s1 * 4 + s2 / 16 :: s2 mod 16 * 16 + s3 / 4 :: s3 mod 4 * 64 + s4 :: tl)
  | _ => None
  end.

Definition is_byte (x : Z) : Prop := 0 <= x < 256.

End Base64.

(* ===================================================================== *)
(** * Collaborators and the world *)
(* ===================================================================== *)

(** What a call returns: a value, or an exception with its [str(e)]. *)
Inductive outcome (A : Type) : Type :=
| Returns (a : A)
| Raises (e : string).
Arguments Returns {A} a.
Arguments Raises {A} e.

(** What [json.loads(line)] does: it returns the parsed value, raises
    [json.JSONDecodeError] on text that is not JSON, or raises another
    exception ([RecursionError] on text nested too deeply, [ValueError]
    on an integer literal with too many digits). The string is [str(e)]. *)
Inductive parsed : Type :=
| Parsed (request : value)
| JSONDecodeError (e : string)
| OtherException (e : string).

(** What the bridge reads from a [TTS] object. [tts_speakers] is [None]
    when the object has no attribute [speakers], [Some None] when the
    attribute is [None]. *)
Record TTS : Type := {
  tts_id : nat;
  tts_language : option string;
  tts_speakers : option (option (list string));
}.

(** The two ways [load_model] calls the constructor:
    [TTS(model_path)] and [TTS(model_path=.., config_path=..)]. *)
Inductive tts_source : Type :=
| Pretrained (model_name : string)
| LocalModel (model_path : string) (config_path : option string).

(** Keyword arguments of [tts_to_file]. *)
Record synth_request : Type := {
  sr_text : string;
  sr_speaker_wav : option string;
  sr_speaker : option string;
  sr_language : string;
  sr_file_path : string;
  sr_speed : value;
}.

Inductive event : Type :=
| EvTTS (src : tts_source) (device : string)   (* TTS(..).to(device) is called *)
| EvDrop (h : TTS)          (* the bridge's reference to [h] is overwritten or deleted *)
| EvEmptyCache              (* torch.cuda.empty_cache() *)
| EvTtsToFile (h : TTS) (req : synth_request).

Record World : Type := {
  fs : gmap string (list Z);     (* files and their bytes *)
  trace : list event;            (* calls into the TTS library and torch *)
  ticks : nat;                   (* advances at every time.sleep / time.time *)
  stdout : list value;           (* objects printed with json.dumps, oldest first *)
}.

Record Env : Type := {
  cuda_is_available : bool;
  TTS_new : tts_source -> string -> gmap string (list Z) -> outcome TTS;
  get_worker_info : option string;
  tts_to_file : TTS -> synth_request -> gmap string (list Z) ->
                outcome unit * gmap string (list Z);
  NamedTemporaryFile : gmap string (list Z) -> outcome string;
  list_models : outcome (list string);
  format_exc : string -> string;
  hash : string -> Z;
  time_time : nat -> string;
  json_loads : string -> parsed;
}.

(* ===================================================================== *)
(** * The state-and-exception monad of a method body *)
(* ===================================================================== *)

Definition M (B A : Type) : Type := B * World -> outcome A * (B * World).

Definition ret {B A} (a : A) : M B A := fun s => (Returns a, s).

Definition bind {B A C} (c : M B A) (k : A -> M B C) : M B C :=
  fun s => match c s with
           | (Returns a, s') => k a s'
           | (Raises e, s') => (Raises e, s')
           end.

Definition raise {B A} (e : string) : M B A := fun s => (Raises e, s).

(** [try: c  except Exception as e: h(str(e))] *)
Definition try_except {B A} (c : M B A) (h : string -> M B A) : M B A :=
  fun s => match c s with
           | (Returns a, s') => (Returns a, s')
           | (Raises e, s') => h e s'
           end.

(** [try: c  finally: f] *)
Definition try_finally {B A} (c : M B A) (f : M B unit) : M B A :=
  fun s => match c s with
           | (r, s') => match f s' with
                        | (Returns _, s'') => (r, s'')
                        | (Raises e, s'') => (Raises e, s'')
                        end
           end.

Definition get_self {B} : M B B := fun s => (Returns (fst s), s).
Definition set_self {B} (b : B) : M B unit := fun s => (Returns tt, (b, snd s)).
Definition get_world {B} : M B World := fun s => (Returns (snd s), s).
Definition set_world {B} (w : World) : M B unit := fun s => (Returns tt, (fst s, w)).
Definition lift_outcome {B A} (o : outcome A) : M B A := fun s => (o, s).

#[global] Instance M_ret B : MRet (M B) := fun A => @ret B A.
#[global] Instance M_bind B : MBind (M B) := fun A C k c => @bind B A C c k.

Definition with_fs (f : gmap string (list Z)) (w : World) : World :=
  {| fs := f; trace := trace w; ticks := ticks w; stdout := stdout w |}.
Definition with_event (ev : event) (w : World) : World :=
  {| fs := fs w; trace := trace w ++ [ev]; ticks := ticks w; stdout := stdout w |}.
Definition with_tick (w : World) : World :=
  {| fs := fs w; trace := trace w; ticks := S (ticks w); stdout := stdout w |}.
Definition with_print (v : value) (w : World) : World :=
  {| fs := fs w; trace := trace w; ticks := ticks w; stdout := stdout w ++ [v] |}.

Definition log {B} (ev : event) : M B unit :=
  fun s => (Returns tt, (fst s, with_event ev (snd s))).
Definition tick {B} : M B unit :=
  fun s => (Returns tt, (fst s, with_tick (snd s))).
(** [print(json.dumps(v), flush=True)] *)
Definition print {B} (v : value) : M B unit :=
  fun s => (Returns tt, (fst s, with_print v (snd s))).

(** [os.path.exists(p)] *)
Definition os_path_exists {B} (p : string) : M B bool :=
  fun s => (Returns (bool_decide (is_Some (fs (snd s) !! p))), s).

(** [os.unlink(p)] *)
Definition os_unlink {B} (p : string) : M B unit :=
  fun s => (Returns tt, (fst s, with_fs (delete p (fs (snd s))) (snd s))).

(** [with open(p, "rb") as f: f.read()] *)
Definition read_file {B} (p : string) : M B (list Z) :=
  fun s => match fs (snd s) !! p with
           | Some data => (Returns data, s)
           | None => (Raises ("[Errno 2] No such file or directory: '" +:+ p +:+ "'"), s)
           end.

(** [time.sleep(secs)] *)
Definition time_sleep {B} (secs : PyFloat.float64) : M B unit := tick.

(** Result records shared by both bridges. *)
Definition failure (prefix e : string) (tb : option string) : dict :=
  [("success", VBool false); ("error", VStr (prefix +:+ e))] ++
  match tb with Some t => [("traceback", VStr t)] | None => [] end.

(** The filter of both [list_available_models]:
    ['bn' in model.lower() or 'bangla' in model.lower() or 'bengali' in model.lower()] *)
Definition is_bangla (model : string) : bool :=
  PyStr.contains "bn" (PyStr.lower model) ||
  PyStr.contains "bangla" (PyStr.lower model) ||
  PyStr.contains "bengali" (PyStr.lower model).

(* ===================================================================== *)
(** * class CoquiTTSBridge (coqui_tts_bridge.py) *)
(* ===================================================================== *)

Module Real.
Section WithEnv.
Variable env : Env.

Record CoquiTTSBridge : Type := {
  tts_model : option TTS;
  current_model_path : option string;
  model_info : dict;
  device : string;
}.

Abbreviation Body := (M CoquiTTSBridge).

(** [__init__] *)
Definition init : CoquiTTSBridge :=
  {| tts_model := None; current_model_path := None; model_info := [];
     device := if cuda_is_available env then "cuda" else "cpu" |}.

(** [self.tts_model = m]; rebinding the attribute drops the handle it
    held, the only reference to it that the bridge creates. *)
Definition set_tts_model (m : option TTS) : Body unit :=
  self ← get_self;
  match tts_model self with Some old => log (EvDrop old) | None => ret tt end;;
  set_self {| tts_model := m; current_model_path := current_model_path self;
              model_info := model_info self; device := device self |}.

Definition set_current_model_path (p : option string) : Body unit :=
  self ← get_self;
  set_self {| tts_model := tts_model self; current_model_path := p;
              model_info := model_info self; device := device self |}.

Definition set_model_info (i : dict) : Body unit :=
  self ← get_self;
  set_self {| tts_model := tts_model self; current_model_path := current_model_path self;
              model_info := i; device := device self |}.

(** [TTS(..).to(device)] *)
Definition new_TTS (src : tts_source) (dev : string) : Body TTS :=
  log (EvTTS src dev);;
  w ← get_world;
  lift_outcome (TTS_new env src dev (fs w)).

Definition speakers_value (m : TTS) : value :=
  match tts_speakers m with
  | Some (Some l) => VList (map VStr l)
  | Some None => VNone
  | None => VList []
  end.

Definition load_model (model_path : string) (config_path speaker_wav : option string)
    (use_gpu : bool) : Body dict :=
  try_except
    (let dev := if use_gpu && cuda_is_available env then "cuda" else "cpu" in
     self ← get_self;
     if bool_decide (is_Some (tts_model self)) &&
        bool_decide (current_model_path self = Some model_path)
     then
       ret [("success", VBool true);
            ("message", VStr "Model already loaded");
            ("model_info", VDict (model_info self))]
     else
       m ← (if PyStr.startswith "tts_models/" model_path then
              m ← new_TTS (Pretrained model_path) dev;
              set_tts_model (Some m);;
              ret m
            else
              ex ← os_path_exists model_path;
              (if negb ex then raise ("Model file not found: " +:+ model_path) else ret tt);;
              cex ← match config_path with
                    | Some c => if PyStr.truthy c then os_path_exists c else ret true
                    | None => ret true
                    end;
              (if negb cex
               then raise ("Config file not found: " +:+ default "" config_path)
               else ret tt);;
              m ← new_TTS (LocalModel model_path config_path) dev;
              set_tts_model (Some m);;
              ret m);
       set_current_model_path (Some model_path);;
       set_model_info
         [("name", VStr (PyStr.basename model_path));
          ("path", VStr model_path);
          ("device", VStr dev);
          ("language", VStr (default "unknown" (tts_language m)));
          ("loaded_at", VStr (default "unknown" (get_worker_info env)));
          ("speakers", speakers_value m);
          ("use_gpu", VBool (String.eqb dev "cuda"))];;
       self ← get_self;
       ret [("success", VBool true);
            ("message", VStr ("Model loaded successfully on " +:+ dev));
            ("model_info", VDict (model_info self))])
    (fun e => ret (failure "Failed to load model: " e (Some (format_exc env e)))).

(** [self.tts_model.tts_to_file(..)] *)
Definition call_tts_to_file (m : TTS) (req : synth_request) : Body unit :=
  log (EvTtsToFile m req);;
  w ← get_world;
  let '(r, f) := tts_to_file env m req (fs w) in
  set_world (with_fs f w);;
  lift_outcome r.

(** [with tempfile.NamedTemporaryFile(suffix=".wav", delete=False) as f:
       temp_path = f.name] *)
Definition make_temp_file : Body string :=
  w ← get_world;
  temp_path ← lift_outcome (NamedTemporaryFile env (fs w));
  set_world (with_fs (<[temp_path := []]> (fs w)) w);;
  ret temp_path.

Definition first_speaker (m : TTS) : option string :=
  match tts_speakers m with
  | Some (Some (s :: _)) => Some s
  | _ => None
  end.

Definition synthesize_speech (text : string) (speaker_wav : option string)
    (language : string) (speed : value) : Body dict :=
  try_except
    (self ← get_self;
     match tts_model self with
     | None =>
         ret [("success", VBool false);
              ("error", VStr "No model loaded. Please load a model first.")]
     | Some m =>
         temp_path ← make_temp_file;
         try_finally
           (clone ← match speaker_wav with
                    | Some sw => if PyStr.truthy sw then os_path_exists sw else ret false
                    | None => ret false
                    end;
            (if clone : bool then
               call_tts_to_file m
                 {| sr_text := text; sr_speaker_wav := speaker_wav; sr_speaker := None;
                    sr_language := language; sr_file_path := temp_path; sr_speed := speed |}
             else
               match first_speaker m with
               | Some sp =>
                   call_tts_to_file m
                     {| sr_text := text; sr_speaker_wav := None; sr_speaker := Some sp;
                        sr_language := language; sr_file_path := temp_path;
                        sr_speed := speed |}
               | None =>
                   call_tts_to_file m
                     {| sr_text := text; sr_speaker_wav := None; sr_speaker := None;
                        sr_language := language; sr_file_path := temp_path;
                        sr_speed := speed |}
               end);;
            audio_data ← read_file temp_path;
            let audio_base64 := Base64.b64encode audio_data in
            ret [("success", VBool true);
                 ("audio_data", VStr audio_base64);
                 ("audio_length", VInt (Z.of_nat (length audio_data)));
                 ("text_length", VInt (PyStr.len text));
                 ("language", VStr language);
                 ("speaker_wav", opt_str_value speaker_wav)])
           (ex ← os_path_exists temp_path;
            if ex : bool then os_unlink temp_path else ret tt)
     end)
    (fun e => ret (failure "Failed to synthesize speech: " e (Some (format_exc env e)))).

Definition get_model_info : Body dict :=
  self ← get_self;
  match tts_model self with
  | None => ret [("success", VBool false); ("error", VStr "No model loaded")]
  | Some _ => ret [("success", VBool true); ("model_info", VDict (model_info self))]
  end.

Definition unload_model : Body dict :=
  try_except
    (self ← get_self;
     match tts_model self with
     | Some _ =>
         set_tts_model None;;            (* del self.tts_model; self.tts_model = None *)
         set_current_model_path None;;
         set_model_info [];;
         (if cuda_is_available env then log EvEmptyCache else ret tt);;
         ret [("success", VBool true); ("message", VStr "Model unloaded successfully")]
     | None =>
         ret [("success", VBool true); ("message", VStr "No model was loaded")]
     end)
    (fun e => ret (failure "Failed to unload model: " e None)).

Definition list_available_models : Body dict :=
  try_except
    (models ← lift_outcome (list_models env);
     let bangla_models := filter (fun model => is_bangla model = true) models in
     ret [("success", VBool true);
          ("all_models", VList (map VStr (take 20 models)));
          ("bangla_models", VList (map VStr bangla_models));
          ("total_models", VInt (Z.of_nat (length models)))])
    (fun e => ret (failure "Failed to list models: " e None)).

End WithEnv.
End Real.

(* ===================================================================== *)
(** * class MockCoquiTTSBridge (coqui_tts_bridge_mock.py) *)
(* ===================================================================== *)

Module Mock.
Section WithEnv.
Variable env : Env.

Record MockCoquiTTSBridge : Type := {
  current_model_path : option string;
  model_info : dict;
  device : string;
}.

Abbreviation Body := (M MockCoquiTTSBridge).

(** [__init__] *)
Definition init : MockCoquiTTSBridge :=
  {| current_model_path := None; model_info := []; device := "cpu" |}.

Definition set_current_model_path (p : option string) : Body unit :=
  self ← get_self;
  set_self {| current_model_path := p; model_info := model_info self;
              device := device self |}.

Definition set_model_info (i : dict) : Body unit :=
  self ← get_self;
  set_self {| current_model_path := current_model_path self; model_info := i;
              device := device self |}.

(** [str(time.time())] *)
Definition now_str : Body string :=
  w ← get_world;
  tick;;
  ret (time_time env (ticks w)).

(** [if self.current_model_path:] *)
Definition path_truthy (p : option string) : bool :=
  match p with Some s => PyStr.truthy s | None => false end.

Definition load_model (model_path : string) (config_path speaker_wav : option string)
    (use_gpu : bool) : Body dict :=
  try_except
    (time_sleep PyFloat.f_0_1;;
     self ← get_self;
     if bool_decide (current_model_path self = Some model_path)
     then
       ret [("success", VBool true);
            ("message", VStr "Model already loaded");
            ("model_info", VDict (model_info self))]
     else
       set_current_model_path (Some model_path);;
       loaded_at ← now_str;
       set_model_info
         [("name", VStr (PyStr.basename model_path));
          ("path", VStr model_path);
          ("device", VStr "cpu");
          ("language",
            VStr (if PyStr.contains "bangla" (PyStr.lower model_path) ||
                     PyStr.contains "bn" (PyStr.lower model_path)
                  then "bn" else "multilingual"));
          ("loaded_at", VStr loaded_at);
          ("speakers", VList [VStr "default_speaker"]);
          ("use_gpu", VBool false)];;
       self ← get_self;
       ret [("success", VBool true);
            ("message", VStr "Mock model loaded successfully on cpu");
            ("model_info", VDict (model_info self))])
    (fun e => ret (failure "Failed to load mock model: " e (Some (format_exc env e)))).

(** [bytearray.append(v)] *)
Definition bytearray_append (data : list Z) (v : Z) : Body (list Z) :=
  if (0 <=? v) && (v <? 256) then ret (data ++ [v])
  else raise "byte must be in range(0, 256)".

(** [for i in range(..): value = (i + hash(text)) % 256
                         mock_audio_data.append(value)] *)
Fixpoint fill_audio (text : string) (indices : list Z) (data : list Z) : Body (list Z) :=
  match indices with
  | [] => ret data
  | i :: rest =>
      let value := (i + hash env text) mod 256 in
      data' ← bytearray_append data value;
      fill_audio text rest data'
  end.

Definition sample_rate : Z := 22050.

(** [int(len(text) * 0.1 * sample_rate)] *)
Definition samples_of (text : string) : Z :=
  let duration_seconds := PyFloat.fmul (PyFloat.of_int (PyStr.len text)) PyFloat.f_0_1 in
  PyFloat.to_int (PyFloat.fmul duration_seconds (PyFloat.of_int sample_rate)).

Definition synthesize_speech (text : string) (speaker_wav : option string)
    (language : string) (speed : value) : Body dict :=
  try_except
    (self ← get_self;
     if negb (path_truthy (current_model_path self)) then
       ret [("success", VBool false);
            ("error", VStr "No model loaded. Please load a model first.")]
     else
       let processing_time :=
         PyFloat.fmul (PyFloat.of_int (PyStr.len text)) PyFloat.f_0_01 in
       time_sleep (PyFloat.fmin processing_time PyFloat.f_0_5);;
       let samples := samples_of text in
       mock_audio_data ← fill_audio text (seqZ 0 (Z.min samples 1000)) [];
       let audio_base64 := Base64.b64encode mock_audio_data in
       ret [("success", VBool true);
            ("audio_data", VStr audio_base64);
            ("audio_length", VInt (Z.of_nat (length mock_audio_data)));
            ("text_length", VInt (PyStr.len text));
            ("language", VStr language);
            ("speaker_wav", opt_str_value speaker_wav);
            ("processing_time", VFloat processing_time)])
    (fun e => ret (failure "Failed to synthesize mock speech: " e (Some (format_exc env e)))).

Definition get_model_info : Body dict :=
  self ← get_self;
  if negb (path_truthy (current_model_path self))
  then ret [("success", VBool false); ("error", VStr "No model loaded")]
  else ret [("success", VBool true); ("model_info", VDict (model_info self))].

Definition unload_model : Body dict :=
  try_except
    (self ← get_self;
     if path_truthy (current_model_path self) then
       set_current_model_path None;;
       set_model_info [];;
       ret [("success", VBool true); ("message", VStr "Mock model unloaded successfully")]
     else
       ret [("success", VBool true); ("message", VStr "No model was loaded")])
    (fun e => ret (failure "Failed to unload mock model: " e None)).

Definition all_models : list string :=
  ["tts_models/multilingual/multi-dataset/xtts_v2";
   "tts_models/en/ljspeech/tacotron2-DDC";
   "tts_models/en/ljspeech/glow-tts";
   "tts_models/bn/custom/bangla-model-v1";
   "tts_models/bn/custom/bangla-model-v2"].

Definition list_available_models : Body dict :=
  try_except
    (let bangla_models := filter (fun model => is_bangla model = true) all_models in
     ret [("success", VBool true);
          ("all_models", VList (map VStr all_models));
          ("bangla_models", VList (map VStr bangla_models));
          ("total_models", VInt (Z.of_nat (length all_models)))])
    (fun e => ret (failure "Failed to list mock models: " e None)).

End WithEnv.
End Mock.

(* ===================================================================== *)
(** * class MockCoquiTTSBridge, on the values of a request *)
(* ===================================================================== *)

(** Python does not check annotations: [bridge.load_model] is called with
    the keyword arguments of [params], whatever JSON values they hold. This
    module embeds the mock's model life cycle with its arguments and with
    [current_model_path] as values; on strings it is the module [Mock]. *)
Module MockUntyped.
Section WithEnv.
Variable env : Env.

Record MockCoquiTTSBridge : Type := {
  current_model_path : value;
  model_info : dict;
  device : string;
}.

Abbreviation Body := (M MockCoquiTTSBridge).

(** [__init__] *)
Definition init : MockCoquiTTSBridge :=
  {| current_model_path := VNone; model_info := []; device := "cpu" |}.

Definition set_current_model_path (p : value) : Body unit :=
  self ← get_self;
  set_self {| current_model_path := p; model_info := model_info self;
              device := device self |}.

Definition set_model_info (i : dict) : Body unit :=
  self ← get_self;
  set_self {| current_model_path := current_model_path self; model_info := i;
              device := device self |}.

(** [str(time.time())] *)
Definition now_str : Body string :=
  w ← get_world;
  tick;;
  ret (time_time env (ticks w)).

(** [os.path.basename(p)]: [os.fspath] raises a [TypeError] on anything
    but a string (of the values of JSON). *)
Definition os_path_basename (p : value) : Body string :=
  match p with
  | VStr s => ret (PyStr.basename s)
  | _ => raise ("expected str, bytes or os.PathLike object, not " +:+ type_name p)
  end.

(** [p.lower()] *)
Definition str_lower (p : value) : Body string :=
  match p with
  | VStr s => ret (PyStr.lower s)
  | _ => raise ("'" +:+ type_name p +:+ "' object has no attribute 'lower'")
  end.

(** [load_model]: the assignment to [current_model_path] comes before the
    dict display of [model_info], whose first entry calls
    [os.path.basename]. *)
Definition load_model (model_path config_path speaker_wav use_gpu : value) : Body dict :=
  try_except
    (time_sleep PyFloat.f_0_1;;
     self ← get_self;
     if py_eq (current_model_path self) model_path
     then
       ret [("success", VBool true);
            ("message", VStr "Model already loaded");
            ("model_info", VDict (model_info self))]
     else
       set_current_model_path model_path;;
       name ← os_path_basename model_path;
       lowered ← str_lower model_path;
       loaded_at ← now_str;
       set_model_info
         [("name", VStr name);
          ("path", model_path);
          ("device", VStr "cpu");
          ("language",
            VStr (if PyStr.contains "bangla" lowered || PyStr.contains "bn" lowered
                  then "bn" else "multilingual"));
          ("loaded_at", VStr loaded_at);
          ("speakers", VList [VStr "default_speaker"]);
          ("use_gpu", VBool false)];;
       self ← get_self;
       ret [("success", VBool true);
            ("message", VStr "Mock model loaded successfully on cpu");
            ("model_info", VDict (model_info self))])
    (fun e => ret (failure "Failed to load mock model: " e (Some (format_exc env e)))).

Definition get_model_info : Body dict :=
  self ← get_self;
  if negb (truthy (current_model_path self))
  then ret [("success", VBool false); ("error", VStr "No model loaded")]
  else ret [("success", VBool true); ("model_info", VDict (model_info self))].

Definition unload_model : Body dict :=
  try_except
    (self ← get_self;
     if truthy (current_model_path self) then
       set_current_model_path VNone;;
       set_model_info [];;
       ret [("success", VBool true); ("message", VStr "Mock model unloaded successfully")]
     else
       ret [("success", VBool true); ("message", VStr "No model was loaded")])
    (fun e => ret (failure "Failed to unload mock model: " e None)).

(** The typed object of [Mock] as this module holds it. *)
Definition of_typed (b : Mock.MockCoquiTTSBridge) : MockCoquiTTSBridge :=
  {| current_model_path := opt_str_value (Mock.current_model_path b);
     model_info := Mock.model_info b;
     device := Mock.device b |}.

End WithEnv.
End MockUntyped.

(* ===================================================================== *)
(** * main: the request loop and the dispatch (the same in both files) *)
(* ===================================================================== *)

(** The five methods [main] calls on its bridge object, and the two
    strings in which the two [main] functions differ. *)
Record Backend (B : Type) : Type := {
  bk_init : B;
  bk_device : B -> string;
  bk_load_model : string -> option string -> option string -> bool -> M B dict;
  bk_synthesize_speech : string -> option string -> string -> value -> M B dict;
  bk_get_model_info : M B dict;
  bk_unload_model : M B dict;
  bk_list_available_models : M B dict;
  bk_ready_message : string;
}.
Arguments bk_init {B} _.
Arguments bk_device {B} _ _.
Arguments bk_load_model {B} _ _ _ _ _.
Arguments bk_synthesize_speech {B} _ _ _ _ _.
Arguments bk_get_model_info {B} _.
Arguments bk_unload_model {B} _.
Arguments bk_list_available_models {B} _.
Arguments bk_ready_message {B} _.

Definition real_backend (env : Env) : Backend Real.CoquiTTSBridge :=
  {| bk_init := Real.init env;
     bk_device := Real.device;
     bk_load_model := Real.load_model env;
     bk_synthesize_speech := Real.synthesize_speech env;
     bk_get_model_info := Real.get_model_info;
     bk_unload_model := Real.unload_model env;
     bk_list_available_models := Real.list_available_models env;
     bk_ready_message := "Coqui TTS bridge ready" |}.

Definition mock_backend (env : Env) : Backend Mock.MockCoquiTTSBridge :=
  {| bk_init := Mock.init;
     bk_device := Mock.device;
     bk_load_model := Mock.load_model env;
     bk_synthesize_speech := Mock.synthesize_speech env;
     bk_get_model_info := Mock.get_model_info;
     bk_unload_model := Mock.unload_model;
     bk_list_available_models := Mock.list_available_models;
     bk_ready_message := "Mock Coqui TTS bridge ready (development mode)" |}.

(** ** Keyword arguments: a method called with [params] expanded *)

(** The outcome of binding the expanded [params] to a signature: the
    arguments, the [TypeError] Python raises when the names do not fit (the
    wording of its message is the interpreter's), or [Unannotated] when a
    value has another type than the parameter's annotation
    ([model_path: str], [use_gpu: bool], ...) or [method] is not a string:
    the embedding of the methods covers the annotated types only. *)
Inductive binding (A : Type) : Type :=
| Bound (a : A)
| TypeError (e : string)
| Unannotated.
Arguments Bound {A} a.
Arguments TypeError {A} e.
Arguments Unannotated {A}.

Definition check_names (fname : string) (names required : list string) (params : value)
    : outcome dict :=
  match params with
  | VDict d =>
      match List.find (fun kv => negb (bool_decide (fst kv ∈ names))) d with
      | Some (k, _) =>
          Raises (fname +:+ "() got an unexpected keyword argument '" +:+ k +:+ "'")
      | None =>
          match List.find (fun k => negb (bool_decide (is_Some (dict_lookup k d)))) required with
          | Some k =>
              Raises (fname +:+ "() missing 1 required positional argument: '" +:+ k +:+ "'")
          | None => Returns d
          end
      end
  | _ => Raises (fname +:+ "() argument after ** must be a mapping")
  end.

Definition arg_str (dflt : option string) (o : option value) : option string :=
  match o with
  | None => dflt
  | Some (VStr s) => Some s
  | Some _ => None
  end.

Definition arg_opt_str (o : option value) : option (option string) :=
  match o with
  | None | Some VNone => Some None
  | Some (VStr s) => Some (Some s)
  | Some _ => None
  end.

Definition arg_bool (dflt : bool) (o : option value) : option bool :=
  match o with
  | None => Some dflt
  | Some (VBool b) => Some b
  | Some _ => None
  end.

Definition arg_number (dflt : value) (o : option value) : option value :=
  match o with
  | None => Some dflt
  | Some (VInt n) => Some (VInt n)
  | Some (VFloat x) => Some (VFloat x)
  | Some _ => None
  end.

Definition of_option {A} (o : option A) : binding A :=
  match o with Some a => Bound a | None => Unannotated end.

Section Main.
Variable env : Env.
Context {B : Type}.
Variable bridge : Backend B.

(** [bridge.load_model] called with [params] expanded *)
Definition call_load_model (params : value) : binding (M B dict) :=
  match check_names "load_model"
          ["model_path"; "config_path"; "speaker_wav"; "use_gpu"] ["model_path"] params with
  | Raises e => TypeError e
  | Returns d =>
      of_option (
        model_path ← arg_str None (dict_lookup "model_path" d);
        config_path ← arg_opt_str (dict_lookup "config_path" d);
        speaker_wav ← arg_opt_str (dict_lookup "speaker_wav" d);
        use_gpu ← arg_bool true (dict_lookup "use_gpu" d);
        Some (bk_load_model bridge model_path config_path speaker_wav use_gpu))
  end.

(** [bridge.synthesize_speech] called with [params] expanded *)
Definition call_synthesize_speech (params : value) : binding (M B dict) :=
  match check_names "synthesize_speech"
          ["text"; "speaker_wav"; "language"; "speed"] ["text"] params with
  | Raises e => TypeError e
  | Returns d =>
      of_option (
        text ← arg_str None (dict_lookup "text" d);
        speaker_wav ← arg_opt_str (dict_lookup "speaker_wav" d);
        language ← arg_str (Some "bn") (dict_lookup "language" d);
        speed ← arg_number (VFloat PyFloat.f_1_0) (dict_lookup "speed" d);
        Some (bk_synthesize_speech bridge text speaker_wav language speed))
  end.

(** The [if method == ..: .. elif ..] chain, for a [method] that is a
    string (the default is the empty string). *)
Definition route (method params : value) : binding (M B dict) :=
  match method with
  | VStr name =>
      if String.eqb name "load_model" then call_load_model params
      else if String.eqb name "synthesize_speech" then call_synthesize_speech params
      else if String.eqb name "get_model_info" then Bound (bk_get_model_info bridge)
      else if String.eqb name "unload_model" then Bound (bk_unload_model bridge)
      else if String.eqb name "list_available_models"
           then Bound (bk_list_available_models bridge)
      else Bound (ret [("success", VBool false);
                       ("error", VStr ("Unknown method: " +:+ name))])
  | _ => Unannotated
  end.

(** The response envelope built from a result record. *)
Definition make_response (request_id : value) (result : dict) : dict :=
  [("id", request_id);
   ("success", dict_get "success" (VBool false) result);
   ("result", if truthy (dict_get "success" VNone result) then VDict result else VNone);
   ("error", if negb (truthy (dict_get "success" VNone result))
             then dict_get "error" VNone result else VNone)].

(** [request.get(k, default)]; an [AttributeError] when the parsed line
    is not an object. *)
Definition request_get (k : string) (dflt : value) (request : value) : M B value :=
  match request with
  | VDict d => ret (dict_get k dflt d)
  | _ => raise "object has no attribute 'get'"
  end.

(** The statements of the inner [try] after [json.loads] returned. *)
Definition dispatch (request : value) : binding (M B unit) :=
  match request with
  | VDict d =>
      let request_id := dict_get "id" (VStr "unknown") d in
      let method := dict_get "method" (VStr "") d in
      let params := dict_get "params" (VDict []) d in
      match route method params with
      | Bound call => Bound (result ← call; print (VDict (make_response request_id result)))
      | TypeError e => Bound (raise e)
      | Unannotated => Unannotated
      end
  | _ => Bound (request_id ← request_get "id" (VStr "unknown") request; ret tt)
  end.

(** [except Exception as e:] of the inner [try]. [request] is the local
    variable of [main]: [None] while no line has been parsed
    (['request' in locals()] is false), else the value of the last line
    that [json.loads] returned. *)
Definition unexpected_error (request : option value) (e : string) : M B unit :=
  request_id ← match request with
               | Some request => request_get "id" (VStr "unknown") request
               | None => ret (VStr "unknown")
               end;
  print (VDict [("id", request_id);
                ("success", VBool false);
                ("error", VStr ("Unexpected error: " +:+ e));
                ("traceback", VStr (format_exc env e))]).

(** [except json.JSONDecodeError as e:] *)
Definition parse_error (e : string) : M B unit :=
  print (VDict [("id", VStr "parse_error");
                ("success", VBool false);
                ("error", VStr ("Failed to parse JSON: " +:+ e))]).

(** The inner [try] with its [except Exception], for a parsed line. *)
Definition handle_request (request : value) : binding (M B unit) :=
  match dispatch request with
  | Bound body => Bound (try_except body (unexpected_error (Some request)))
  | TypeError e => TypeError e
  | Unannotated => Unannotated
  end.

(** One iteration of [for line in sys.stdin:]. [request] is the local
    variable as the earlier iterations left it. [except
    json.JSONDecodeError] catches that exception only; any other one
    that [json.loads] raises reaches [except Exception], and the local
    still holds the request of an earlier line. *)
Definition handle_line (request : option value) (line : string) : binding (M B unit) :=
  let line := PyStr.strip line in
  if negb (PyStr.truthy line) then Bound (ret tt)
  else
    match json_loads env line with
    | JSONDecodeError e => Bound (parse_error e)
    | OtherException e => Bound (unexpected_error request e)
    | Parsed request => handle_request request
    end.

(** The local [request] after an iteration: [request = json.loads(line)]
    assigns it when [json.loads] returns, nothing else does. *)
Definition next_request (request : option value) (line : string) : option value :=
  let line := PyStr.strip line in
  if negb (PyStr.truthy line) then request
  else
    match json_loads env line with
    | Parsed request' => Some request'
    | _ => request
    end.

(** The local [request] after the loop read [lines]. *)
Fixpoint request_after (request : option value) (lines : list string) : option value :=
  match lines with
  | [] => request
  | line :: rest => request_after (next_request request line) rest
  end.

(** The [for] loop; an exception that escapes an iteration ends it. *)
Fixpoint run_lines (request : option value) (lines : list string) : binding (M B unit) :=
  match lines with
  | [] => Bound (ret tt)
  | line :: rest =>
      match handle_line request line, run_lines (next_request request line) rest with
      | Bound h, Bound k => Bound (h;; k)
      | Bound _, other => other
      | other, _ => other
      end
  end.

Definition ready : dict :=
  [("id", VStr "ready"); ("success", VBool true);
   ("message", VStr (bk_ready_message bridge))].

(** [main()], fed the lines of standard input up to end of file (a
    [KeyboardInterrupt] arrives from outside and is not part of the
    embedding). *)
Definition main (lines : list string) : binding (M B unit) :=
  match run_lines None lines with
  | Bound loop =>
      Bound (self ← get_self;
             print (VDict (ready ++ [("device", VStr (bk_device bridge self))]));;
             try_except loop
               (fun e => print (VDict [("id", VStr "fatal_error");
                                       ("success", VBool false);
                                       ("error", VStr ("Fatal error: " +:+ e));
                                       ("traceback", VStr (format_exc env e))])))
  | other => other
  end.

End Main.

(* ===================================================================== *)
(** * Vocabulary of the properties *)
(* ===================================================================== *)

(** A call of one of the five methods, with arguments of the annotated types. *)
Inductive call : Type :=
| LoadModel (model_path : string) (config_path speaker_wav : option string) (use_gpu : bool)
| SynthesizeSpeech (text : string) (speaker_wav : option string) (language : string)
    (speed : value)
| GetModelInfo
| UnloadModel
| ListAvailableModels.

Definition perform {B} (bk : Backend B) (c : call) : M B dict :=
  match c with
  | LoadModel p cfg spk gpu => bk_load_model bk p cfg spk gpu
  | SynthesizeSpeech t spk lang speed => bk_synthesize_speech bk t spk lang speed
  | GetModelInfo => bk_get_model_info bk
  | UnloadModel => bk_unload_model bk
  | ListAvailableModels => bk_list_available_models bk
  end.

(** The state after a sequence of calls, one after the other. *)
Definition exec {B} (bk : Backend B) (cs : list call) (s : B * World) : B * World :=
  fold_left (fun s c => snd (perform bk c s)) cs s.

(** [result.get("success")] is true. *)
Definition succeeded (result : dict) : bool := truthy (dict_get "success" VNone result).

(** The invariant of ModelState, for the real bridge: [model_info] is
    non-empty exactly when [current_model_path] is set (is not [None]),
    exactly when [tts_model] is set. *)
Definition real_inv (b : Real.CoquiTTSBridge) : Prop :=
  (Real.model_info b <> [] <-> is_Some (Real.current_model_path b)) /\
  (is_Some (Real.current_model_path b) <-> is_Some (Real.tts_model b)).

Definition mock_inv (b : Mock.MockCoquiTTSBridge) : Prop :=
  Mock.model_info b <> [] <-> is_Some (Mock.current_model_path b).

(** The same invariant on the mock with untyped arguments:
    [current_model_path] is set when it is not [None]. *)
Definition mock_untyped_inv (b : MockUntyped.MockCoquiTTSBridge) : Prop :=
  MockUntyped.model_info b <> [] <-> MockUntyped.current_model_path b <> VNone.

Definition empty_world : World :=
  {| fs := ∅; trace := []; ticks := 0; stdout := [] |}.

(** The result of [load_model] when the requested model is the loaded one. *)
Definition already_loaded (info : dict) : dict :=
  [("success", VBool true); ("message", VStr "Model already loaded");
   ("model_info", VDict info)].

(** The results of the guard of [get_model_info] and of [synthesize_speech]. *)
Definition no_model_loaded : dict :=
  [("success", VBool false); ("error", VStr "No model loaded")].
Definition no_model_loaded_synth : dict :=
  [("success", VBool false); ("error", VStr "No model loaded. Please load a model first.")].

(** The collaborators of one [synthesize_speech] call succeed: a temporary
    file [temp_path] is created, and [tts_to_file], whichever of the three
    ways it is called, returns and leaves a readable file at [temp_path]. *)
Definition synthesis_succeeds (env : Env) (m : TTS) (f : gmap string (list Z))
    (temp_path : string) : Prop :=
  NamedTemporaryFile env f = Returns temp_path /\
  forall req, sr_file_path req = temp_path ->
    exists f', tts_to_file env m req (<[temp_path := []]> f) = (Returns tt, f') /\
               is_Some (f' !! temp_path).

#[global] Instance TTS_eq_dec : EqDecision TTS.
Proof. solve_decision. Defined.

(** In the trace of a call, the handle [old] is dropped before every call
    of the constructor ([released]: it has been dropped already). *)
Fixpoint released_before_acquired (old : TTS) (released : bool) (tr : list event) : bool :=
  match tr with
  | [] => true
  | EvDrop h :: tr' => released_before_acquired old (released || bool_decide (h = old)) tr'
  | EvTTS _ _ :: tr' => released && released_before_acquired old released tr'
  | _ :: tr' => released_before_acquired old released tr'
  end.

(** A result record as the dispatcher expects it: [success] is a bool, and
    a failure carries its message under [error]. *)
Definition wf_result (r : dict) : Prop :=
  dict_lookup "success" r = Some (VBool true) \/
  (dict_lookup "success" r = Some (VBool false) /\
   exists msg, dict_lookup "error" r = Some (VStr msg)).

(** A field of a response is present: the key is there and is not null. *)
Definition present (k : string) (resp : dict) : bool :=
  match dict_lookup k resp with
  | None | Some VNone => false
  | Some _ => true
  end.

(** The envelope of the specification around a result record: the
    response carries the request's id and the record's [success], a
    boolean; around a success, [result] is the record itself and [error]
    is absent; around a failure, [result] is absent and [error] is the
    record's [error] string. *)
Definition envelope (request_id : value) (result resp : dict) : Prop :=
  dict_lookup "id" resp = Some request_id /\
  dict_lookup "success" result = Some (VBool (succeeded result)) /\
  dict_lookup "success" resp = Some (VBool (succeeded result)) /\
  if succeeded result
  then dict_lookup "result" resp = Some (VDict result) /\
       present "error" resp = false
  else present "result" resp = false /\
       exists msg, dict_lookup "error" result = Some (VStr msg) /\
                   dict_lookup "error" resp = Some (VStr msg).

(** The response to a line that is not JSON. *)
Definition parse_error_response (e : string) : value :=
  VDict [("id", VStr "parse_error"); ("success", VBool false);
         ("error", VStr ("Failed to parse JSON: " +:+ e))].

(** The id of the response when [json.loads] raised an exception other
    than [json.JSONDecodeError]: that of the last request parsed before,
    which the local [request] still holds, or "unknown" before the first. *)
Definition stale_id (request : option value) : value :=
  match request with
  | Some (VDict d) => dict_get "id" (VStr "unknown") d
  | _ => VStr "unknown"
  end.

(** The local [request] is unset or holds a JSON object. *)
Definition object_or_unset (request : option value) : bool :=
  match request with
  | Some (VDict _) | None => true
  | Some _ => false
  end.

(** The state after [v] was printed. *)
Definition printed {B} (v : value) (s : B * World) : B * World :=
  (fst s, with_print v (snd s)).

(** [s] contains [needle] case-insensitively: some substring of [s] is
    [needle] once lowered ([needle] is given in lower case). *)
Definition ci_contains (needle s : string) : Prop :=
  exists pre mid post, s = pre +:+ mid +:+ post /\ PyStr.lower mid = needle.

(** The three spellings the filter looks for. *)
Definition names_bangla (model : string) : Prop :=
  ci_contains "bn" model \/ ci_contains "bangla" model \/ ci_contains "bengali" model.

(** The result of [list_available_models] of the real bridge for a catalog. *)
Definition listing (models : list string) : dict :=
  [("success", VBool true);
   ("all_models", VList (map VStr (take 20 models)));
   ("bangla_models", VList (map VStr (filter (fun model => is_bangla model = true) models)));
   ("total_models", VInt (Z.of_nat (length models)))].

(** The binary order of magnitude of a positive float: the value lies in
    [2 ^ flog x, 2 ^ (flog x + 1)). *)
Definition flog (x : PyFloat.float64) : Z := Z.log2 (PyFloat.mant x) + PyFloat.expo x.




(** The result of [unload_model] when nothing is loaded. *)
Definition nothing_to_unload : dict :=
  [("success", VBool true); ("message", VStr "No model was loaded")].

(** ** A sample environment, to run the embedding on concrete inputs *)

Module Sample.

Definition riff : list Z := [82; 73; 70; 70].

Definition catalog : list string :=
  ["tts_models/multilingual/multi-dataset/xtts_v2";
   "tts_models/multilingual/multi-dataset/xtts_v1.1";
   "tts_models/multilingual/multi-dataset/your_tts";
   "tts_models/multilingual/multi-dataset/bark";
   "tts_models/bg/cv/vits";
   "tts_models/cs/cv/vits";
   "tts_models/da/cv/vits";
   "tts_models/et/cv/vits";
   "tts_models/ga/cv/vits";
   "tts_models/en/ek1/tacotron2";
   "tts_models/en/ljspeech/tacotron2-DDC";
   "tts_models/en/ljspeech/tacotron2-DDC_ph";
   "tts_models/en/ljspeech/glow-tts";
   "tts_models/en/ljspeech/speedy-speech";
   "tts_models/en/ljspeech/tacotron2-DCA";
   "tts_models/en/ljspeech/vits";
   "tts_models/en/ljspeech/vits--neon";
   "tts_models/en/ljspeech/fast_pitch";
   "tts_models/en/ljspeech/overflow";
   "tts_models/en/ljspeech/neural_hmm";
   "tts_models/bn/custom/vits-male"].

Definition quote : string := String (ascii_of_nat 34) EmptyString.

(** The line [{"id": "7", "method": "get_model_info"}] *)
Definition line_get_model_info : string :=
  "{" +:+ quote +:+ "id" +:+ quote +:+ ": " +:+ quote +:+ "7" +:+ quote +:+ ", " +:+
  quote +:+ "method" +:+ quote +:+ ": " +:+ quote +:+ "get_model_info" +:+ quote +:+ "}".

(** A line of [n] opening brackets. CPython's parser raises
    [RecursionError], not [json.JSONDecodeError], once the nesting passes
    its recursion limit (1000 by default). *)
Fixpoint brackets (n : nat) : string :=
  match n with
  | O => EmptyString
  | S n => String "[" (brackets n)
  end.

Definition line_deep : string := brackets 1200.

(** A line that holds a no-break space (U+00A0) and a next-line
    character (U+0085) only. *)
Definition line_nbsp : string :=
  String (ascii_of_nat 160) (String (ascii_of_nat 133) EmptyString).

Definition env : Env :=
  {| cuda_is_available := true;
     TTS_new := fun src dev _ =>
       match src with
       | Pretrained name =>
           if String.eqb name "tts_models/xx/missing" then Raises "Model not found"
           else Returns {| tts_id := String.length name; tts_language := None;
                           tts_speakers := Some (Some ["s1"; "s2"]) |}
       | LocalModel path _ =>
           Returns {| tts_id := String.length path; tts_language := None;
                      tts_speakers := Some None |}
       end;
     get_worker_info := None;
     tts_to_file := fun _ req f =>
       if PyStr.truthy (sr_text req)
       then (Returns tt, <[sr_file_path req := riff]> f)
       else (Raises "empty text", f);
     NamedTemporaryFile := fun _ => Returns "/tmp/tmpk3x9.wav";
     list_models := Returns catalog;
     format_exc := fun e => "Traceback (most recent call last): " +:+ e;
     hash := fun text => Z.of_nat (String.length text) * 7919;
     time_time := fun _ => "1700000000.0";
     json_loads := fun line =>
       if String.eqb line line_get_model_info
       then Parsed (VDict [("id", VStr "7"); ("method", VStr "get_model_info")])
       else if String.eqb line "17" then Parsed (VInt 17)
       else if String.eqb line line_deep
       then OtherException
              "maximum recursion depth exceeded while decoding a JSON array from a unicode string"
       else JSONDecodeError "Expecting value: line 1 column 1 (char 0)" |}.


(** The real bridge after [load_model("tts_models/bn/a")]. *)
Definition loaded_a : Real.CoquiTTSBridge * World :=
  exec (real_backend env) [LoadModel "tts_models/bn/a" None None true]
    (Real.init env, empty_world).

Definition model_a : TTS :=
  {| tts_id := 15; tts_language := None; tts_speakers := Some (Some ["s1"; "s2"]) |}.

(** The mock bridge after [load_model("tts_models/bn/a")]. *)
Definition mock_loaded_a : Mock.MockCoquiTTSBridge * World :=
  exec (mock_backend env) [LoadModel "tts_models/bn/a" None None true]
    (Mock.init, empty_world).

End Sample.

(* ===================================================================== *)
(** * Vocabulary of the further properties *)
(* ===================================================================== *)

(** The real bridge with its three model fields cleared. *)
Definition real_cleared (b : Real.CoquiTTSBridge) : Real.CoquiTTSBridge :=
  {| Real.tts_model := None; Real.current_model_path := None; Real.model_info := [];
     Real.device := Real.device b |}.

Definition mock_cleared (b : Mock.MockCoquiTTSBridge) : Mock.MockCoquiTTSBridge :=
  {| Mock.current_model_path := None; Mock.model_info := []; Mock.device := Mock.device b |}.

(** The world after the real [unload_model] released handle [m]. *)
Definition released (env : Env) (m : TTS) (w : World) : World :=
  if cuda_is_available env
  then with_event EvEmptyCache (with_event (EvDrop m) w)
  else with_event (EvDrop m) w.

(** The device [load_model] resolves. *)
Definition resolved_device (env : Env) (use_gpu : bool) : string :=
  if use_gpu && cuda_is_available env then "cuda" else "cpu".

(** The voice [synthesize_speech] asks [tts_to_file] for: the reference
    recording when one is given, is not empty and exists; else the first
    speaker of a model that has speakers; else the model's default. *)
Definition chosen_voice (m : TTS) (f : gmap string (list Z)) (speaker_wav : option string)
    : option string * option string :=
  match speaker_wav with
  | Some sw =>
      if PyStr.truthy sw && bool_decide (is_Some (f !! sw)) then (Some sw, None)
      else (None, Real.first_speaker m)
  | None => (None, Real.first_speaker m)
  end.

Definition chosen_request (m : TTS) (f : gmap string (list Z)) (text : string)
    (speaker_wav : option string) (language : string) (speed : value) (temp_path : string)
    : synth_request :=
  {| sr_text := text;
     sr_speaker_wav := fst (chosen_voice m f speaker_wav);
     sr_speaker := snd (chosen_voice m f speaker_wav);
     sr_language := language; sr_file_path := temp_path; sr_speed := speed |}.

(** The five method names of the dispatch. *)
Definition method_names : list string :=
  ["load_model"; "synthesize_speech"; "get_model_info"; "unload_model";
   "list_available_models"].

(** The response to a request whose handling raised. *)
Definition unexpected_error_response (env : Env) (request_id : value) (e : string) : value :=
  VDict [("id", request_id); ("success", VBool false);
         ("error", VStr ("Unexpected error: " +:+ e));
         ("traceback", VStr (format_exc env e))].

(** The response when an exception escaped the loop. *)
Definition fatal_error_response (env : Env) (e : string) : value :=
  VDict [("id", VStr "fatal_error"); ("success", VBool false);
         ("error", VStr ("Fatal error: " +:+ e));
         ("traceback", VStr (format_exc env e))].

(** The ready message of [main]. *)
Definition ready_response {B} (bk : Backend B) (self : B) : value :=
  VDict [("id", VStr "ready"); ("success", VBool true);
         ("message", VStr (bk_ready_message bk)); ("device", VStr (bk_device bk self))].

(** A parsed line is a JSON object. *)
Definition is_object (v : value) : bool :=
  match v with VDict _ => true | _ => false end.

(** The keyword arguments [params] fit a signature: [params] is an
    object, every key is a parameter name, every required parameter is
    there. *)
Definition kwargs_fit (names required : list string) (params : value) : bool :=
  match params with
  | VDict kv =>
      forallb (fun kv => bool_decide (fst kv ∈ names)) kv &&
      forallb (fun k => bool_decide (is_Some (dict_lookup k kv))) required
  | _ => false
  end.

Definition load_model_parameters : list string :=
  ["model_path"; "config_path"; "speaker_wav"; "use_gpu"].
Definition synthesize_speech_parameters : list string :=
  ["text"; "speaker_wav"; "language"; "speed"].

(** The bytes of the mock audio for a text: [count] bytes that count up
    from [hash(text)], modulo 256. *)
Definition mock_pattern (env : Env) (text : string) (count : Z) : list Z :=
  map (fun i => (i + hash env text) mod 256) (seqZ 0 count).

(** The number of bytes the mock generates. *)
Definition mock_audio_size (text : string) : Z :=
  match text with EmptyString => 0 | String _ _ => 1000 end.

Example b64encode_three_bytes : Base64.b64encode [77; 97; 110] = "TWFu". Proof. reflexivity. Qed.
Example b64encode_two_bytes : Base64.b64encode [77; 97] = "TWE=". Proof. reflexivity. Qed.
Example b64encode_one_byte : Base64.b64encode [77] = "TQ==". Proof. reflexivity. Qed.
Example b64decode_padded : Base64.b64decode "TWFuTQ==" = Some [77;97;110;77]. Proof. reflexivity. Qed.

Lemma dec6_enc6 n : 0 <= n < 64 -> Base64.dec6 (Base64.enc6 n) = Some n /\ Base64.is_pad (Base64.enc6 n) = false.
Proof.
  intros Hn. rewrite <- (Z2Nat.id n) by lia.
  assert (Hk : (Z.to_nat n < 64)%nat) by lia.
  generalize dependent (Z.to_nat n). clear Hn. intros k Hk.
  do 64 (destruct k as [|k]; [vm_compute; split; reflexivity|]). lia.
Qed.

Ltac b64_range := unfold Base64.is_byte in *; Z.div_mod_to_equations; lia.

Ltac b64_sextets :=
  repeat match goal with
    | |- context [Base64.is_pad (Base64.enc6 ?x)] =>
        let H := fresh in
        destruct (dec6_enc6 x) as [_ H]; [b64_range | rewrite H; clear H]
    | |- context [Base64.dec6 (Base64.enc6 ?x)] =>
        let H := fresh in
        destruct (dec6_enc6 x) as [H _]; [b64_range | rewrite H; clear H]
    end.

Lemma b64_roundtrip_aux n : forall d, (length d <= n)%nat -> Forall Base64.is_byte d ->
  Base64.b64decode (Base64.b64encode d) = Some d.
Proof.
  induction n as [n IH] using lt_wf_ind. intros d Hlen Hd.
  destruct d as [|a [|b [|c rest]]]; [reflexivity | | |].
  - inversion Hd as [|? ? Ha _]; subst.
    cbn [Base64.b64encode Base64.b64decode].
    change (Base64.is_pad Base64.pad) with true. cbn match.
    b64_sextets. cbn. do 2 f_equal. b64_range.
  - inversion Hd as [|? ? Ha Hd']; subst. inversion Hd' as [|? ? Hb _]; subst.
    cbn [Base64.b64encode Base64.b64decode].
    change (Base64.is_pad Base64.pad) with true. cbn match.
    b64_sextets. cbn. f_equal. f_equal; [|f_equal]; b64_range.
  - inversion Hd as [|? ? Ha Hd']; subst. inversion Hd' as [|? ? Hb Hd'']; subst.
    inversion Hd'' as [|? ? Hc Hr]; subst.
    cbn [Base64.b64encode Base64.b64decode].
    b64_sextets. cbn [mbind option_bind].
    rewrite (IH (length rest)); [| simpl in Hlen; lia | lia | exact Hr].
    cbn [mbind option_bind]. f_equal. f_equal; [|f_equal; [|f_equal]]; b64_range.
Qed.

Lemma b64_roundtrip d : Forall Base64.is_byte d ->
  Base64.b64decode (Base64.b64encode d) = Some d.
Proof. apply (b64_roundtrip_aux (length d)). lia. Qed.

(* ===================================================================== *)
(** * Running method bodies *)
(* ===================================================================== *)

(* ===================================================================== *)
(** * Substrings *)
(* ===================================================================== *)

Lemma append_cons c a b : String c a +:+ b = String c (a +:+ b).
Proof. reflexivity. Qed.

Lemma append_nil b : EmptyString +:+ b = b.
Proof. reflexivity. Qed.

Lemma startswith_spec p : forall s,
  PyStr.startswith p s = true <-> exists post, s = p +:+ post.
Proof.
  induction p as [|a p IH]; intros s; cbn [PyStr.startswith].
  - split; [intros _; by exists s | done].
  - destruct s as [|b s].
    + split; [done | intros [post H]; rewrite append_cons in H; discriminate].
    + destruct (Ascii.eqb a b) eqn:E.
      * apply Ascii.eqb_eq in E as ->. rewrite IH.
        split; intros [post H]; exists post; rewrite append_cons in *; congruence.
      * apply Ascii.eqb_neq in E. split; [done|]. intros [post H].
        rewrite append_cons in H. congruence.
Qed.

Lemma contains_spec sub s :
  PyStr.contains sub s = true <-> exists pre post, s = pre +:+ sub +:+ post.
Proof.
  induction s as [|c r IH]; cbn [PyStr.contains]; rewrite orb_true_iff, startswith_spec.
  - split.
    + intros [[post H]|H]; [|done]. by exists EmptyString, post.
    + intros ([|a pre] & post & H); [|rewrite append_cons in H; discriminate].
      left. by exists post.
  - rewrite IH. split.
    + intros [[post H]|(pre & post & H)].
      * by exists EmptyString, post.
      * exists (String c pre), post. by rewrite append_cons, H.
    + intros ([|a pre] & post & H).
      * left. by exists post.
      * right. exists pre, post. rewrite append_cons in H. congruence.
Qed.

Lemma lower_app a b : PyStr.lower (a +:+ b) = PyStr.lower a +:+ PyStr.lower b.
Proof.
  induction a as [|c a IH]; [done|].
  rewrite append_cons. cbn [PyStr.lower]. by rewrite append_cons, IH.
Qed.

Lemma lower_split a : forall s b,
  PyStr.lower s = a +:+ b ->
  exists a' b', s = a' +:+ b' /\ PyStr.lower a' = a /\ PyStr.lower b' = b.
Proof.
  induction a as [|c a IH]; intros s b H.
  - by exists EmptyString, s.
  - rewrite append_cons in H.
    destruct s as [|c' s]; [discriminate|]. cbn [PyStr.lower] in H. injection H as Hc Hs.
    destruct (IH s b Hs) as (a' & b' & -> & Ha & Hb).
    exists (String c' a'), b'. cbn [PyStr.lower]. by rewrite append_cons, Hc, Ha.
Qed.

Lemma contains_lower_spec needle s :
  PyStr.contains needle (PyStr.lower s) = true <-> ci_contains needle s.
Proof.
  rewrite contains_spec. unfold ci_contains. split.
  - intros (pre & post & H).
    destruct (lower_split pre s _ H) as (pre' & rest & -> & _ & Hrest).
    destruct (lower_split needle rest _ Hrest) as (mid & post' & -> & Hmid & _).
    by exists pre', mid, post'.
  - intros (pre & mid & post & -> & Hmid).
    exists (PyStr.lower pre), (PyStr.lower post). by rewrite !lower_app, Hmid.
Qed.

Lemma is_bangla_spec model : is_bangla model = true <-> names_bangla model.
Proof.
  unfold is_bangla, names_bangla.
  rewrite !orb_true_iff, !contains_lower_spec. tauto.
Qed.

(** String functions are kept folded while a method body is run. *)
#[local] Arguments PyStr.startswith : simpl never.
#[local] Arguments PyStr.contains : simpl never.
#[local] Arguments PyStr.lower : simpl never.
#[local] Arguments PyStr.basename : simpl never.
#[local] Arguments PyStr.truthy : simpl never.
#[local] Arguments PyStr.len : simpl never.
#[local] Arguments String.append : simpl never.
#[local] Arguments String.eqb : simpl never.
#[local] Arguments Base64.b64encode : simpl never.
#[local] Arguments failure : simpl never.

Ltac unfold_M :=
  unfold mbind, M_bind, mret, M_ret, bind, ret, raise, try_except, try_finally,
    get_self, set_self, get_world, set_world, lift_outcome, log, tick, print,
    os_path_exists, os_unlink, read_file, time_sleep in *.

Ltac break_match :=
  match goal with
  | |- context [match ?x with _ => _ end] =>
      lazymatch x with
      | context [match _ with _ => _ end] => fail
      | _ => destruct x eqn:?
      end
  | |- context [if ?x then _ else _] =>
      lazymatch x with
      | context [if _ then _ else _] => fail
      | _ => destruct x eqn:?
      end
  end.

(** ** The real bridge: every method returns, and what it does to the object *)

Lemma real_load_model_cases env p cfg spk gpu s w :
  exists r s' w',
    Real.load_model env p cfg spk gpu (s, w) = (Returns r, (s', w')) /\
    ((succeeded r = false /\ s' = s) \/
     (succeeded r = true /\ s' = s /\ w' = w /\ r = already_loaded (Real.model_info s) /\
        is_Some (Real.tts_model s) /\ Real.current_model_path s = Some p) \/
     (succeeded r = true /\ exists m info, info <> [] /\
        s' = {| Real.tts_model := Some m; Real.current_model_path := Some p;
                Real.model_info := info; Real.device := Real.device s |})).
Proof.
  unfold Real.load_model, Real.new_TTS, Real.set_tts_model, Real.set_current_model_path,
    Real.set_model_info.
  unfold_M. cbn.
  repeat (break_match; cbn); simplify_eq; do 3 eexists; (split; [reflexivity|]).
  all: try (left; split; [reflexivity|]; reflexivity).
  all: try (right; right; split; [reflexivity|]; do 2 eexists; split; [|reflexivity]; discriminate).
  all: right; left; destruct s; cbn in *;
    repeat match goal with H : _ && _ = true |- _ => apply andb_prop in H; destruct H end;
    repeat match goal with H : bool_decide _ = true |- _ => apply bool_decide_eq_true in H end;
    rewrite ?andb_true_r in *;
    repeat split; auto.
Qed.

Lemma real_synthesize_speech_keeps_self env t spk lang speed s w :
  exists r w', Real.synthesize_speech env t spk lang speed (s, w) = (Returns r, (s, w')).
Proof.
  unfold Real.synthesize_speech, Real.make_temp_file, Real.call_tts_to_file.
  unfold_M. cbn.
  repeat (break_match; cbn in *; simplify_eq); eauto.
Qed.

Lemma real_get_model_info_keeps_state s w :
  exists r, Real.get_model_info (s, w) = (Returns r, (s, w)).
Proof. unfold Real.get_model_info. unfold_M. cbn. destruct (Real.tts_model s); eauto. Qed.

Lemma real_unload_model_cases env s w :
  exists r w',
    Real.unload_model env (s, w) = (Returns r, (match Real.tts_model s with
                                                | Some _ =>
                                                    {| Real.tts_model := None;
                                                       Real.current_model_path := None;
                                                       Real.model_info := [];
                                                       Real.device := Real.device s |}
                                                | None => s
                                                end, w')) /\
    succeeded r = true.
Proof.
  unfold Real.unload_model, Real.set_tts_model, Real.set_current_model_path,
    Real.set_model_info.
  unfold_M. cbn.
  repeat (break_match; cbn in *; simplify_eq); eauto.
Qed.

Lemma real_list_available_models_keeps_state env s w :
  exists r, Real.list_available_models env (s, w) = (Returns r, (s, w)).
Proof.
  unfold Real.list_available_models. unfold_M. cbn.
  destruct (list_models env); eauto.
Qed.

(** ** The mock bridge *)

Lemma mock_load_model_cases env p cfg spk gpu s w :
  exists r s' w',
    Mock.load_model env p cfg spk gpu (s, w) = (Returns r, (s', w')) /\
    succeeded r = true /\
    ((s' = s /\ w' = with_tick w /\ r = already_loaded (Mock.model_info s) /\
        Mock.current_model_path s = Some p) \/
     (exists info, info <> [] /\
        s' = {| Mock.current_model_path := Some p; Mock.model_info := info;
                Mock.device := Mock.device s |})).
Proof.
  unfold Mock.load_model, Mock.set_current_model_path, Mock.set_model_info, Mock.now_str.
  unfold_M. cbn.
  destruct (bool_decide (Mock.current_model_path s = Some p)) eqn:E; cbn.
  - apply bool_decide_eq_true in E. do 3 eexists. split; [reflexivity|].
    split; [reflexivity|]. left. destruct s; auto.
  - do 3 eexists. split; [reflexivity|]. split; [reflexivity|].
    right. eexists. split; [|reflexivity]. discriminate.
Qed.

Lemma mock_fill_audio_returns env text indices data s :
  Forall Base64.is_byte data ->
  exists data', Mock.fill_audio env text indices data s = (Returns data', s) /\
                length data' = (length data + length indices)%nat /\
                Forall Base64.is_byte data'.
Proof.
  revert data. induction indices as [|i rest IH]; intros data Hd; cbn.
  - exists data. unfold_M. rewrite Nat.add_0_r. auto.
  - unfold Mock.bytearray_append. unfold_M.
    assert (Hr : 0 <= (i + hash env text) mod 256 < 256) by (apply Z.mod_pos_bound; lia).
    destruct ((0 <=? (i + hash env text) mod 256) && ((i + hash env text) mod 256 <? 256)) eqn:E;
      [|lia].
    destruct (IH (data ++ [(i + hash env text) mod 256])) as (data' & -> & Hlen & Hb).
    { apply Forall_app. split; [exact Hd|]. constructor; [exact Hr|constructor]. }
    exists data'. split; [reflexivity|]. split; [|exact Hb].
    rewrite Hlen, length_app. cbn. lia.
Qed.

Lemma mock_synthesize_speech_keeps_self env t spk lang speed s w :
  exists r w', Mock.synthesize_speech env t spk lang speed (s, w) = (Returns r, (s, w')).
Proof.
  unfold Mock.synthesize_speech. unfold_M. cbn.
  destruct (negb (Mock.path_truthy (Mock.current_model_path s))); cbn; [eauto|].
  destruct (mock_fill_audio_returns env t (seqZ 0 (Z.min (Mock.samples_of t) 1000)) []
              (s, with_tick w)) as (data' & -> & _); [constructor|].
  eauto.
Qed.

Lemma mock_get_model_info_keeps_state s w :
  exists r, Mock.get_model_info (s, w) = (Returns r, (s, w)).
Proof.
  unfold Mock.get_model_info. unfold_M. cbn.
  destruct (negb (Mock.path_truthy (Mock.current_model_path s))); eauto.
Qed.

Lemma mock_unload_model_cases s w :
  exists r,
    Mock.unload_model (s, w) = (Returns r, (if Mock.path_truthy (Mock.current_model_path s)
                                             then {| Mock.current_model_path := None;
                                                     Mock.model_info := [];
                                                     Mock.device := Mock.device s |}
                                             else s, w)) /\
    succeeded r = true.
Proof.
  unfold Mock.unload_model, Mock.set_current_model_path, Mock.set_model_info.
  unfold_M. cbn.
  destruct (Mock.path_truthy (Mock.current_model_path s)); cbn; eauto.
Qed.

Lemma mock_list_available_models_keeps_state s w :
  exists r, Mock.list_available_models (s, w) = (Returns r, (s, w)).
Proof. unfold Mock.list_available_models. unfold_M. cbn. eauto. Qed.

(* ===================================================================== *)
(** * The invariant of ModelState *)
(* ===================================================================== *)

Ltac solve_inv :=
  unfold real_inv, mock_inv; cbn; repeat split; intros ?;
  try done; try (by eauto); by match goal with H : is_Some None |- _ => destruct H end.

Lemma real_perform_inv env c s w :
  real_inv s ->
  exists r s' w',
    perform (real_backend env) c (s, w) = (Returns r, (s', w')) /\
    real_inv s' /\ (succeeded r = false -> s' = s).
Proof.
  intros Hinv. destruct c as [p cfg spk gpu|t spk lang speed| | |]; cbn.
  - destruct (real_load_model_cases env p cfg spk gpu s w)
      as (r & s' & w' & -> & [[Hr ->]|[(Hr & -> & _)|(Hr & m & info & Hne & ->)]]).
    + eauto 10.
    + do 3 eexists. split; [reflexivity|]. split; [exact Hinv|]. congruence.
    + do 3 eexists. split; [reflexivity|]. split; [|congruence].
      solve_inv.
  - destruct (real_synthesize_speech_keeps_self env t spk lang speed s w) as (r & w' & ->).
    eauto 10.
  - destruct (real_get_model_info_keeps_state s w) as (r & ->). eauto 10.
  - destruct (real_unload_model_cases env s w) as (r & w' & -> & Hr).
    do 3 eexists. split; [reflexivity|]. split; [|congruence].
    destruct (Real.tts_model s); [|exact Hinv].
    solve_inv.
  - destruct (real_list_available_models_keeps_state env s w) as (r & ->). eauto 10.
Qed.

Lemma mock_perform_inv env c s w :
  mock_inv s ->
  exists r s' w',
    perform (mock_backend env) c (s, w) = (Returns r, (s', w')) /\
    mock_inv s' /\ (succeeded r = false -> s' = s).
Proof.
  intros Hinv. destruct c as [p cfg spk gpu|t spk lang speed| | |]; cbn.
  - destruct (mock_load_model_cases env p cfg spk gpu s w)
      as (r & s' & w' & -> & Hr & [(-> & _)|(info & Hne & ->)]).
    + do 3 eexists. split; [reflexivity|]. split; [exact Hinv|]. congruence.
    + do 3 eexists. split; [reflexivity|]. split; [|congruence].
      solve_inv.
  - destruct (mock_synthesize_speech_keeps_self env t spk lang speed s w) as (r & w' & ->).
    eauto 10.
  - destruct (mock_get_model_info_keeps_state s w) as (r & ->). eauto 10.
  - destruct (mock_unload_model_cases s w) as (r & -> & Hr).
    do 3 eexists. split; [reflexivity|]. split; [|congruence].
    destruct (Mock.path_truthy (Mock.current_model_path s)); [|exact Hinv].
    solve_inv.
  - do 3 eexists. split; [reflexivity|]. auto.
Qed.

Lemma real_exec_inv env cs : forall s, real_inv (fst s) -> real_inv (fst (exec (real_backend env) cs s)).
Proof.
  induction cs as [|c cs IH]; intros [s w] Hinv; [exact Hinv|].
  cbn. apply IH.
  destruct (real_perform_inv env c s w Hinv) as (r & s' & w' & E & Hinv' & _).
  cbn in E. rewrite E. exact Hinv'.
Qed.

Lemma mock_exec_inv env cs : forall s, mock_inv (fst s) -> mock_inv (fst (exec (mock_backend env) cs s)).
Proof.
  induction cs as [|c cs IH]; intros [s w] Hinv; [exact Hinv|].
  cbn. apply IH.
  destruct (mock_perform_inv env c s w Hinv) as (r & s' & w' & E & Hinv' & _).
  cbn in E. rewrite E. exact Hinv'.
Qed.

Lemma real_init_inv env : real_inv (Real.init env).
Proof. solve_inv. Qed.

Lemma mock_init_inv : mock_inv Mock.init.
Proof. solve_inv. Qed.

(** X16. With arguments of the annotated types: in the real and in the
    mock bridge, started from [__init__] and after any sequence of calls
    of the five methods, the next call [c] returns a result record and
    leaves a ModelState in which [model_info] is non-empty exactly when
    [current_model_path] is set (and, in the real bridge, exactly when
    [tts_model] is set); a call that reports failure leaves the three
    fields as they were. (On such arguments the mock's [load_model] never
    fails; what it does on a [model_path] that is not a string is stated
    further down.) *)
Theorem model_state_invariant env (cs : list call) (c : call) (w : World) :
  (exists r s',
     perform (real_backend env) c (exec (real_backend env) cs (Real.init env, w))
       = (Returns r, s') /\
     real_inv (fst s') /\
     (succeeded r = false ->
      fst s' = fst (exec (real_backend env) cs (Real.init env, w)))) /\
  (exists r s',
     perform (mock_backend env) c (exec (mock_backend env) cs (Mock.init, w))
       = (Returns r, s') /\
     mock_inv (fst s') /\
     (succeeded r = false ->
      fst s' = fst (exec (mock_backend env) cs (Mock.init, w)))).
Proof.
  split.
  - pose proof (real_exec_inv env cs (Real.init env, w) (real_init_inv env)) as Hinv.
    destruct (exec (real_backend env) cs (Real.init env, w)) as [s w0].
    destruct (real_perform_inv env c s w0 Hinv) as (r & s' & w' & E & Hinv' & Hf).
    exists r, (s', w'). auto.
  - pose proof (mock_exec_inv env cs (Mock.init, w) mock_init_inv) as Hinv.
    destruct (exec (mock_backend env) cs (Mock.init, w)) as [s w0].
    destruct (mock_perform_inv env c s w0 Hinv) as (r & s' & w' & E & Hinv' & Hf).
    exists r, (s', w'). auto.
Qed.

(* ===================================================================== *)
(** * The mock's load_model on a model_path that is not a string *)
(* ===================================================================== *)

Lemma py_eq_opt_str (o : option string) (p : string) :
  py_eq (opt_str_value o) (VStr p) = bool_decide (o = Some p).
Proof.
  destruct o as [q|]; cbn; [|done].
  destruct (String.eqb_spec q p) as [->|Hne].
  - by rewrite bool_decide_eq_true_2.
  - rewrite bool_decide_eq_false_2; [done|]. intros E. by simplify_eq.
Qed.

(** On a string, the untyped [load_model] is the typed one. *)
Lemma mock_untyped_load_model_typed env p cfg spk gpu cfg' spk' gpu' s w :
  MockUntyped.load_model env (VStr p) cfg' spk' gpu' (MockUntyped.of_typed s, w)
  = (fst (Mock.load_model env p cfg spk gpu (s, w)),
     (MockUntyped.of_typed (fst (snd (Mock.load_model env p cfg spk gpu (s, w)))),
      snd (snd (Mock.load_model env p cfg spk gpu (s, w))))).
Proof.
  unfold MockUntyped.load_model, Mock.load_model, MockUntyped.set_current_model_path,
    MockUntyped.set_model_info, Mock.set_current_model_path, Mock.set_model_info,
    MockUntyped.now_str, Mock.now_str, MockUntyped.os_path_basename,
    MockUntyped.str_lower.
  unfold_M. cbn. rewrite py_eq_opt_str.
  destruct (bool_decide (Mock.current_model_path s = Some p)); reflexivity.
Qed.

(** C1. The mock's [load_model] assigns [current_model_path] before it
    builds [model_info]. Called on the fresh object with [model_path = 5],
    as the request [{"id": "1", "method": "load_model", "params":
    {"model_path": 5}}] makes [main] call it, [os.path.basename] raises
    after the assignment: the call reports failure and leaves
    [current_model_path] set to 5 with [model_info] empty, so the
    invariant of ModelState is broken. [get_model_info] then reports
    success with an empty [model_info]. Called with [model_path = None]
    while a model is loaded, the call fails the same way and leaves
    [current_model_path] unset with the [model_info] of the old model. *)
Theorem mock_load_model_half_update env (w : World) :
  let half := {| MockUntyped.current_model_path := VInt 5;
                 MockUntyped.model_info := [];
                 MockUntyped.device := "cpu" |} in
  MockUntyped.load_model env (VInt 5) VNone VNone (VBool true) (MockUntyped.init, w)
    = (Returns (failure "Failed to load mock model: "
                  "expected str, bytes or os.PathLike object, not int"
                  (Some (format_exc env
                           "expected str, bytes or os.PathLike object, not int"))),
       (half, with_tick w)) /\
  mock_untyped_inv MockUntyped.init /\
  (mock_untyped_inv half -> False) /\
  MockUntyped.get_model_info (half, with_tick w)
    = (Returns [("success", VBool true); ("model_info", VDict [])], (half, with_tick w)) /\
  (forall p info,
     info <> [] ->
     let loaded := {| MockUntyped.current_model_path := VStr p;
                      MockUntyped.model_info := info;
                      MockUntyped.device := "cpu" |} in
     let stale := {| MockUntyped.current_model_path := VNone;
                     MockUntyped.model_info := info;
                     MockUntyped.device := "cpu" |} in
     MockUntyped.load_model env VNone VNone VNone (VBool true) (loaded, w)
       = (Returns (failure "Failed to load mock model: "
                     "expected str, bytes or os.PathLike object, not NoneType"
                     (Some (format_exc env
                              "expected str, bytes or os.PathLike object, not NoneType"))),
          (stale, with_tick w)) /\
     (mock_untyped_inv stale -> False)).
Proof.
  cbn zeta. split; [reflexivity|]. split; [split; intros H; by destruct H|].
  split; [intros [_ H]; by apply H|]. split; [reflexivity|].
  intros p info Hinfo. split; [reflexivity|].
  intros [H _]. by apply H.
Qed.

(* ===================================================================== *)
(** * Loading the model that is already loaded *)
(* ===================================================================== *)

Lemma real_load_model_same env X cfg spk gpu s w :
  is_Some (Real.tts_model s) -> Real.current_model_path s = Some X ->
  Real.load_model env X cfg spk gpu (s, w)
    = (Returns (already_loaded (Real.model_info s)), (s, w)).
Proof.
  intros Hm Hp. unfold Real.load_model. unfold_M. cbn.
  rewrite (bool_decide_eq_true_2 _ Hm), (bool_decide_eq_true_2 _ Hp). reflexivity.
Qed.

Lemma mock_load_model_same env X cfg spk gpu s w :
  Mock.current_model_path s = Some X ->
  Mock.load_model env X cfg spk gpu (s, w)
    = (Returns (already_loaded (Mock.model_info s)), (s, with_tick w)).
Proof.
  intros Hp. unfold Mock.load_model. unfold_M. cbn.
  rewrite (bool_decide_eq_true_2 _ Hp). reflexivity.
Qed.

(** After a load that reports success, the requested model is the loaded one
    and the record carries the stored [model_info]. *)
Lemma real_load_model_success env X cfg spk gpu s w r s1 w1 :
  Real.load_model env X cfg spk gpu (s, w) = (Returns r, (s1, w1)) ->
  succeeded r = true ->
  is_Some (Real.tts_model s1) /\ Real.current_model_path s1 = Some X /\
  dict_lookup "model_info" r = Some (VDict (Real.model_info s1)).
Proof.
  unfold Real.load_model, Real.new_TTS, Real.set_tts_model, Real.set_current_model_path,
    Real.set_model_info.
  unfold_M. cbn.
  repeat (break_match; cbn); intros E Hs; simplify_eq; cbn in *; try discriminate.
  all: repeat match goal with H : _ && _ = true |- _ => apply andb_prop in H; destruct H end;
    repeat match goal with H : bool_decide _ = true |- _ => apply bool_decide_eq_true in H end;
    eauto.
Qed.

Lemma mock_load_model_success env X cfg spk gpu s w r s1 w1 :
  Mock.load_model env X cfg spk gpu (s, w) = (Returns r, (s1, w1)) ->
  Mock.current_model_path s1 = Some X /\
  dict_lookup "model_info" r = Some (VDict (Mock.model_info s1)).
Proof.
  unfold Mock.load_model, Mock.set_current_model_path, Mock.set_model_info, Mock.now_str.
  unfold_M. cbn.
  destruct (bool_decide (Mock.current_model_path s = Some X)) eqn:E; cbn;
    intros ?; simplify_eq; cbn; [apply bool_decide_eq_true in E|]; auto.
Qed.

Lemma real_repeat_load env X cfg spk gpu n : forall s w,
  is_Some (Real.tts_model s) -> Real.current_model_path s = Some X ->
  exec (real_backend env) (replicate n (LoadModel X cfg spk gpu)) (s, w) = (s, w).
Proof.
  induction n as [|n IH]; intros s w Hm Hp; [reflexivity|].
  cbn. rewrite real_load_model_same by assumption. cbn. apply IH; assumption.
Qed.

Lemma mock_repeat_load env X cfg spk gpu n : forall s w,
  Mock.current_model_path s = Some X ->
  exists w', exec (mock_backend env) (replicate n (LoadModel X cfg spk gpu)) (s, w) = (s, w') /\
             trace w' = trace w /\ fs w' = fs w.
Proof.
  induction n as [|n IH]; intros s w Hp; [by exists w|].
  cbn. rewrite mock_load_model_same by assumption. cbn.
  destruct (IH s (with_tick w) Hp) as (w' & E & Ht & Hf). exists w'. auto.
Qed.

(** C2. When model [X] is the loaded one, [load_model(X)] calls no
    constructor (the world, and so the trace of library calls, is
    untouched; the mock only sleeps), reports success and returns the stored
    [model_info], and the bridge object is left as it was. Consequently,
    once a [load_model(X)] has reported success, every further
    [load_model(X)], whatever its other arguments and however many follow,
    is such a call: same [model_info], same ModelState, nothing acquired. *)
Theorem load_model_same_path_noop env X :
  (forall cfg spk gpu s w,
     is_Some (Real.tts_model s) -> Real.current_model_path s = Some X ->
     Real.load_model env X cfg spk gpu (s, w)
       = (Returns (already_loaded (Real.model_info s)), (s, w))) /\
  (forall cfg spk gpu s w,
     Mock.current_model_path s = Some X ->
     Mock.load_model env X cfg spk gpu (s, w)
       = (Returns (already_loaded (Mock.model_info s)), (s, with_tick w))) /\
  (forall cfg spk gpu s w r s1 w1,
     Real.load_model env X cfg spk gpu (s, w) = (Returns r, (s1, w1)) ->
     succeeded r = true ->
     dict_lookup "model_info" r = Some (VDict (Real.model_info s1)) /\
     forall cfg' spk' gpu' w' n,
       Real.load_model env X cfg' spk' gpu' (s1, w')
         = (Returns (already_loaded (Real.model_info s1)), (s1, w')) /\
       exec (real_backend env) (replicate n (LoadModel X cfg' spk' gpu')) (s1, w')
         = (s1, w')) /\
  (forall cfg spk gpu s w r s1 w1,
     Mock.load_model env X cfg spk gpu (s, w) = (Returns r, (s1, w1)) ->
     succeeded r = true ->
     dict_lookup "model_info" r = Some (VDict (Mock.model_info s1)) /\
     forall cfg' spk' gpu' w' n,
       Mock.load_model env X cfg' spk' gpu' (s1, w')
         = (Returns (already_loaded (Mock.model_info s1)), (s1, with_tick w')) /\
       exists w'',
         exec (mock_backend env) (replicate n (LoadModel X cfg' spk' gpu')) (s1, w')
           = (s1, w'') /\ trace w'' = trace w' /\ fs w'' = fs w').
Proof.
  split; [|split; [|split]].
  - intros. by apply real_load_model_same.
  - intros. by apply mock_load_model_same.
  - intros cfg spk gpu s w r s1 w1 E Hs.
    destruct (real_load_model_success _ _ _ _ _ _ _ _ _ _ E Hs) as (Hm & Hp & Hi).
    split; [exact Hi|]. intros. split.
    + by apply real_load_model_same.
    + by apply real_repeat_load.
  - intros cfg spk gpu s w r s1 w1 E Hs.
    destruct (mock_load_model_success _ _ _ _ _ _ _ _ _ _ E) as (Hp & Hi).
    split; [exact Hi|]. intros. split.
    + by apply mock_load_model_same.
    + by apply mock_repeat_load.
Qed.

(* ===================================================================== *)
(** * The guard on the loaded model *)
(* ===================================================================== *)

Lemma real_synthesize_speech_ok env t spk lang speed s w m temp_path :
  Real.tts_model s = Some m ->
  synthesis_succeeds env m (fs w) temp_path ->
  exists r w', Real.synthesize_speech env t spk lang speed (s, w) = (Returns r, (s, w')) /\
               succeeded r = true /\ fs w' !! temp_path = None.
Proof.
  intros Hm [Htmp Hok].
  assert (Hcall : forall req, sr_file_path req = temp_path ->
            exists f' data,
              tts_to_file env m req (<[temp_path := []]> (fs w)) = (Returns tt, f') /\
              f' !! temp_path = Some data /\
              bool_decide (is_Some (f' !! temp_path)) = true).
  { intros req Hreq. destruct (Hok req Hreq) as (f' & E & [data Hf]).
    exists f', data. split; [exact E|]. split; [exact Hf|].
    apply bool_decide_eq_true_2. eauto. }
  unfold Real.synthesize_speech, Real.make_temp_file, Real.call_tts_to_file.
  unfold_M. cbn. rewrite Hm. cbn. rewrite Htmp. cbn.
  destruct spk as [sw|]; [destruct (PyStr.truthy sw)|]; cbn;
    try destruct (bool_decide (is_Some (<[temp_path:=[]]> (fs w) !! sw))); cbn;
    try destruct (Real.first_speaker m); cbn.
  all: match goal with
       | |- context [tts_to_file _ _ ?req _] =>
           destruct (Hcall req eq_refl) as (f' & data & E & Hf & Hb);
           rewrite E; cbn; rewrite Hf; cbn; rewrite Hb; cbn
       end.
  all: do 2 eexists; split; [reflexivity|]; split; [reflexivity|]; apply lookup_delete_eq.
Qed.

(** C3. In the real bridge, while no model is loaded, [get_model_info] and
    [synthesize_speech] return their no-model-loaded failure and touch
    neither the object nor the world (no temporary file, no call into the
    library: the guard comes first). After a [load_model] that reported
    success, [get_model_info] succeeds with the stored [model_info], and
    [synthesize_speech] succeeds whenever its collaborators do. *)
Theorem not_loaded_guard env :
  (forall s w, Real.tts_model s = None ->
     Real.get_model_info (s, w) = (Returns no_model_loaded, (s, w)) /\
     forall t spk lang speed,
       Real.synthesize_speech env t spk lang speed (s, w)
         = (Returns no_model_loaded_synth, (s, w))) /\
  (forall X cfg spk gpu s w r s1 w1,
     Real.load_model env X cfg spk gpu (s, w) = (Returns r, (s1, w1)) ->
     succeeded r = true ->
     (forall w',
        Real.get_model_info (s1, w')
          = (Returns [("success", VBool true); ("model_info", VDict (Real.model_info s1))],
             (s1, w'))) /\
     (exists m, Real.tts_model s1 = Some m /\
        forall w' temp_path t spk' lang speed,
          synthesis_succeeds env m (fs w') temp_path ->
          exists r' w'',
            Real.synthesize_speech env t spk' lang speed (s1, w') = (Returns r', (s1, w'')) /\
            succeeded r' = true)).
Proof.
  split.
  - intros s w Hm. split.
    + unfold Real.get_model_info. unfold_M. cbn. by rewrite Hm.
    + intros. unfold Real.synthesize_speech. unfold_M. cbn. by rewrite Hm.
  - intros X cfg spk gpu s w r s1 w1 E Hs.
    destruct (real_load_model_success _ _ _ _ _ _ _ _ _ _ E Hs) as ([m Hm] & _ & _).
    split.
    + intros w'. unfold Real.get_model_info. unfold_M. cbn. by rewrite Hm.
    + exists m. split; [exact Hm|]. intros w' temp_path t spk' lang speed Hok.
      destruct (real_synthesize_speech_ok env t spk' lang speed s1 w' m temp_path Hm Hok)
        as (r' & w'' & E' & Hr & _).
      eauto.
Qed.

(* ===================================================================== *)
(** * The temporary file of synthesize_speech *)
(* ===================================================================== *)

(** C9. A call of the real [synthesize_speech] that gets as far as
    creating its temporary file [temp_path] returns a result record, and
    when it returns no file is left at [temp_path]: whether [tts_to_file]
    returned or raised, whatever it did to the files, and whether reading
    the audio back worked or not. *)
Theorem temp_file_removed env t spk lang speed s w m temp_path :
  Real.tts_model s = Some m ->
  NamedTemporaryFile env (fs w) = Returns temp_path ->
  exists r w',
    Real.synthesize_speech env t spk lang speed (s, w) = (Returns r, (s, w')) /\
    fs w' !! temp_path = None.
Proof.
  intros Hm Htmp.
  unfold Real.synthesize_speech, Real.make_temp_file, Real.call_tts_to_file.
  unfold_M. cbn. rewrite Hm. cbn. rewrite Htmp. cbn.
  destruct spk as [sw|]; [destruct (PyStr.truthy sw)|]; cbn;
    try destruct (bool_decide (is_Some (<[temp_path:=[]]> (fs w) !! sw))); cbn;
    try destruct (Real.first_speaker m); cbn.
  all: match goal with
       | |- context [tts_to_file _ _ ?req ?f] =>
           destruct (tts_to_file env m req f) as [[[]|e] f'] eqn:E; cbn
       end.
  all: destruct (f' !! temp_path) as [data|] eqn:Hf; cbn; rewrite ?Hf; cbn.
  all: repeat case_bool_decide; cbn.
  all: try match goal with H : ¬ is_Some (Some _) |- _ => exfalso; apply H; eauto end.
  all: try match goal with H : is_Some None |- _ => by destruct H end.
  all: do 2 eexists; (split; [reflexivity|]); cbn; first [apply lookup_delete_eq | exact Hf].
Qed.

(* ===================================================================== *)
(** * Replacing the loaded model *)
(* ===================================================================== *)

(** C4, as the code has it. A [load_model] with another path than the
    loaded one first calls the constructor for the new model, while the old
    one is still held; only when that call returned is the old handle
    dropped, by the assignment that overwrites [tts_model], and no
    [empty_cache] follows. When the load fails (missing file, or the
    constructor raises) nothing is dropped: the old model stays loaded and
    the object is as it was. *)
Theorem replace_acquires_then_drops env X cfg spk gpu s w old Y :
  Real.tts_model s = Some old -> Real.current_model_path s = Some Y -> X <> Y ->
  exists r s' w',
    Real.load_model env X cfg spk gpu (s, w) = (Returns r, (s', w')) /\
    ((succeeded r = false /\ s' = s /\
      (trace w' = trace w \/ exists src dev, trace w' = trace w ++ [EvTTS src dev])) \/
     (succeeded r = true /\
      exists new src dev,
        trace w' = trace w ++ [EvTTS src dev; EvDrop old] /\
        Real.tts_model s' = Some new /\ Real.current_model_path s' = Some X)).
Proof.
  intros Hm Hp Hne.
  unfold Real.load_model, Real.new_TTS, Real.set_tts_model, Real.set_current_model_path,
    Real.set_model_info.
  unfold_M. cbn. rewrite Hm, Hp. cbn.
  rewrite (bool_decide_eq_false_2 (Some Y = Some X)) by congruence.
  rewrite ?andb_false_r; cbn.
  repeat (break_match; cbn); simplify_eq; do 3 eexists; (split; [reflexivity|]).
  all: first
    [ left; split; [reflexivity|]; split; [reflexivity|]; cbn;
      first [ left; reflexivity | right; do 2 eexists; reflexivity ]
    | right; split; [reflexivity|]; do 3 eexists; cbn; rewrite <- app_assoc; cbn;
      split; [reflexivity|]; split; reflexivity ].
Qed.

Example sample_loaded_a :
  Real.tts_model (fst Sample.loaded_a) = Some Sample.model_a /\
  Real.current_model_path (fst Sample.loaded_a) = Some "tts_models/bn/a" /\
  trace (snd Sample.loaded_a) = [EvTTS (Pretrained "tts_models/bn/a") "cuda"].
Proof. vm_compute. auto. Qed.

(** C4, the claim as stated, fails: with model [a] loaded,
    [load_model("tts_models/en/b")] calls the constructor for [b] first
    and drops [a] afterwards. *)
Lemma replace_does_not_release_first :
  trace (snd (exec (real_backend Sample.env)
                [LoadModel "tts_models/en/b" None None true] Sample.loaded_a))
    = [EvTTS (Pretrained "tts_models/bn/a") "cuda";
       EvTTS (Pretrained "tts_models/en/b") "cuda";
       EvDrop Sample.model_a] /\
  released_before_acquired Sample.model_a false
    [EvTTS (Pretrained "tts_models/en/b") "cuda"; EvDrop Sample.model_a] = false.
Proof. vm_compute. auto. Qed.

Lemma replace_acquires_then_drops_witness :
  Real.tts_model (fst Sample.loaded_a) = Some Sample.model_a /\
  Real.current_model_path (fst Sample.loaded_a) = Some "tts_models/bn/a" /\
  exists r s' w',
    Real.load_model Sample.env "tts_models/en/b" None None true
      (fst Sample.loaded_a, snd Sample.loaded_a) = (Returns r, (s', w')) /\
    ((succeeded r = false /\ s' = fst Sample.loaded_a /\
      (trace w' = trace (snd Sample.loaded_a) \/
       exists src dev, trace w' = trace (snd Sample.loaded_a) ++ [EvTTS src dev])) \/
     (succeeded r = true /\
      exists new src dev,
        trace w' = trace (snd Sample.loaded_a) ++ [EvTTS src dev; EvDrop Sample.model_a] /\
        Real.tts_model s' = Some new /\ Real.current_model_path s' = Some "tts_models/en/b")).
Proof.
  split; [reflexivity|]. split; [reflexivity|].
  apply (replace_acquires_then_drops Sample.env "tts_models/en/b" None None true
           (fst Sample.loaded_a) (snd Sample.loaded_a) Sample.model_a "tts_models/bn/a");
    [reflexivity | reflexivity | discriminate].
Defined.

Lemma temp_file_removed_witness :
  Real.tts_model (fst Sample.loaded_a) = Some Sample.model_a /\
  NamedTemporaryFile Sample.env (fs (snd Sample.loaded_a)) = Returns "/tmp/tmpk3x9.wav" /\
  exists r w',
    Real.synthesize_speech Sample.env "" None "bn" (VFloat PyFloat.f_1_0)
      (fst Sample.loaded_a, snd Sample.loaded_a) = (Returns r, (fst Sample.loaded_a, w')) /\
    fs w' !! "/tmp/tmpk3x9.wav" = None.
Proof.
  split; [reflexivity|]. split; [reflexivity|].
  apply (temp_file_removed Sample.env "" None "bn" (VFloat PyFloat.f_1_0)
           (fst Sample.loaded_a) (snd Sample.loaded_a) Sample.model_a "/tmp/tmpk3x9.wav");
    reflexivity.
Defined.

(** On the sample environment: the failure path (empty text makes
    [tts_to_file] raise) and the success path both end without the file. *)
Example sample_synthesize_failure :
  exists r w',
    Real.synthesize_speech Sample.env "" None "bn" (VFloat PyFloat.f_1_0) Sample.loaded_a
      = (Returns r, (fst Sample.loaded_a, w')) /\
    dict_lookup "error" r = Some (VStr "Failed to synthesize speech: empty text") /\
    fs w' = ∅.
Proof. do 2 eexists. vm_compute. auto. Qed.

Example sample_synthesize_success :
  exists r w',
    Real.synthesize_speech Sample.env "hello" None "bn" (VFloat PyFloat.f_1_0) Sample.loaded_a
      = (Returns r, (fst Sample.loaded_a, w')) /\
    dict_lookup "audio_data" r = Some (VStr "UklGRg==") /\
    dict_lookup "audio_length" r = Some (VInt 4) /\
    dict_lookup "text_length" r = Some (VInt 5) /\
    fs w' = ∅.
Proof. do 2 eexists. vm_compute. auto. Qed.

(* ===================================================================== *)
(** * The response envelope *)
(* ===================================================================== *)

Lemma wf_failure prefix e tb : wf_result (failure prefix e tb).
Proof. right. split; [reflexivity|]. eexists. reflexivity. Qed.

Ltac solve_wf :=
  first [ apply wf_failure
        | left; reflexivity
        | right; split; [reflexivity|]; eexists; reflexivity ].

Lemma real_perform_wf env c s :
  exists r s', perform (real_backend env) c s = (Returns r, s') /\ wf_result r.
Proof.
  destruct s as [s w]. destruct c as [p cfg spk gpu|t spk lang speed| | |]; cbn.
  - unfold Real.load_model, Real.new_TTS, Real.set_tts_model, Real.set_current_model_path,
      Real.set_model_info.
    unfold_M. cbn.
    repeat (break_match; cbn); simplify_eq; do 2 eexists; (split; [reflexivity|]); solve_wf.
  - unfold Real.synthesize_speech, Real.make_temp_file, Real.call_tts_to_file.
    unfold_M. cbn.
    repeat (break_match; cbn in *; simplify_eq); do 2 eexists; (split; [reflexivity|]); solve_wf.
  - unfold Real.get_model_info. unfold_M. cbn.
    destruct (Real.tts_model s); do 2 eexists; (split; [reflexivity|]); solve_wf.
  - unfold Real.unload_model, Real.set_tts_model, Real.set_current_model_path,
      Real.set_model_info.
    unfold_M. cbn.
    repeat (break_match; cbn in *; simplify_eq); do 2 eexists; (split; [reflexivity|]); solve_wf.
  - unfold Real.list_available_models. unfold_M. cbn.
    destruct (list_models env); do 2 eexists; (split; [reflexivity|]); solve_wf.
Qed.

Lemma mock_perform_wf env c s :
  exists r s', perform (mock_backend env) c s = (Returns r, s') /\ wf_result r.
Proof.
  destruct s as [s w]. destruct c as [p cfg spk gpu|t spk lang speed| | |]; cbn.
  - unfold Mock.load_model, Mock.set_current_model_path, Mock.set_model_info, Mock.now_str.
    unfold_M. cbn.
    destruct (bool_decide (Mock.current_model_path s = Some p)); cbn;
      do 2 eexists; (split; [reflexivity|]); solve_wf.
  - unfold Mock.synthesize_speech. unfold_M. cbn.
    destruct (negb (Mock.path_truthy (Mock.current_model_path s))); cbn.
    + do 2 eexists. split; [reflexivity|]. solve_wf.
    + destruct (mock_fill_audio_returns env t (seqZ 0 (Z.min (Mock.samples_of t) 1000)) []
                  (s, with_tick w)) as (data' & -> & _); [constructor|].
      do 2 eexists. split; [reflexivity|]. solve_wf.
  - unfold Mock.get_model_info. unfold_M. cbn.
    destruct (negb (Mock.path_truthy (Mock.current_model_path s)));
      do 2 eexists; (split; [reflexivity|]); solve_wf.
  - unfold Mock.unload_model, Mock.set_current_model_path, Mock.set_model_info.
    unfold_M. cbn.
    destruct (Mock.path_truthy (Mock.current_model_path s)); cbn;
      do 2 eexists; (split; [reflexivity|]); solve_wf.
  - do 2 eexists. split; [reflexivity|]. solve_wf.
Qed.

(** What the [if/elif] chain can call: one of the five methods with bound
    arguments, or the unknown-method record. *)
Lemma route_cases {B} (bk : Backend B) method params call :
  route bk method params = Bound call ->
  (exists c, call = perform bk c) \/
  (exists m, call = ret [("success", VBool false); ("error", VStr ("Unknown method: " +:+ m))]).
Proof.
  unfold route, call_load_model, call_synthesize_speech, of_option. intros E.
  destruct method as [| | | |name| |]; try discriminate.
  repeat match type of E with
         | context [if ?x then _ else _] => destruct x eqn:?
         end.
  all: repeat match type of E with
         | context [match ?x with _ => _ end] =>
             lazymatch x with
             | context [match _ with _ => _ end] => fail
             | _ => destruct x eqn:?; cbn in E; try discriminate
             end
         end.
  all: simplify_option_eq.
  all: first [ left; by eexists (LoadModel _ _ _ _)
             | left; by eexists (SynthesizeSpeech _ _ _ _)
             | left; by exists GetModelInfo
             | left; by exists UnloadModel
             | left; by exists ListAvailableModels
             | right; by eexists ].
Qed.

Lemma make_response_envelope request_id result :
  wf_result result -> envelope request_id result (make_response request_id result).
Proof.
  intros [Hs|[Hs [msg He]]];
    unfold envelope, make_response, present, succeeded, dict_get; cbn;
    rewrite Hs; cbn; rewrite ?He; cbn.
  - repeat split; done.
  - repeat split; try done. eauto.
Qed.

Lemma envelope_fields request_id result resp :
  envelope request_id result resp ->
  (exists b, dict_lookup "success" resp = Some (VBool b)) /\
  (present "result" resp = true <-> dict_lookup "success" resp = Some (VBool true)) /\
  (present "error" resp = true <-> dict_lookup "success" resp = Some (VBool false)).
Proof.
  intros (_ & _ & Hs & H). split; [eauto|]. rewrite Hs.
  destruct (succeeded result).
  - destruct H as [Hres Herr]. unfold present in *. rewrite Hres.
    split; split; try done. rewrite Herr. done.
  - destruct H as [Hres (msg & _ & Herr)]. unfold present in *. rewrite Herr, Hres.
    split; split; done.
Qed.

Section Envelope.
Variable env : Env.
Context {B : Type}.
Variable bk : Backend B.
Hypothesis perform_wf :
  forall c s, exists r s', perform bk c s = (Returns r, s') /\ wf_result r.

Lemma routed_call_wf method params call s :
  route bk method params = Bound call ->
  exists result s1, call s = (Returns result, s1) /\ wf_result result.
Proof.
  intros E. destruct (route_cases bk method params call E) as [[c ->]|[m ->]].
  - apply perform_wf.
  - do 2 eexists. split; [reflexivity|]. solve_wf.
Qed.

Lemma handle_request_response d body s :
  handle_request env bk (VDict d) = Bound body ->
  exists resp s1,
    body s = (Returns tt, (fst s1, with_print (VDict resp) (snd s1))) /\
    (exists b, dict_lookup "success" resp = Some (VBool b)) /\
    (present "result" resp = true <-> dict_lookup "success" resp = Some (VBool true)) /\
    (present "error" resp = true <-> dict_lookup "success" resp = Some (VBool false)) /\
    ((exists call result,
        route bk (dict_get "method" (VStr "") d) (dict_get "params" (VDict []) d)
          = Bound call /\
        call s = (Returns result, s1) /\
        envelope (dict_get "id" (VStr "unknown") d) result resp) \/
     (exists e,
        route bk (dict_get "method" (VStr "") d) (dict_get "params" (VDict []) d)
          = TypeError e /\
        s1 = s /\
        dict_lookup "id" resp = Some (dict_get "id" (VStr "unknown") d) /\
        dict_lookup "success" resp = Some (VBool false) /\
        dict_lookup "error" resp = Some (VStr ("Unexpected error: " +:+ e)))).
Proof.
  unfold handle_request, dispatch.
  destruct (route bk (dict_get "method" (VStr "") d) (dict_get "params" (VDict []) d))
    as [call|e|] eqn:Hroute; intros E; simplify_eq.
  - destruct (routed_call_wf _ _ _ s Hroute) as (result & s1 & Hcall & Hwf).
    pose proof (make_response_envelope (dict_get "id" (VStr "unknown") d) result Hwf) as Henv.
    exists (make_response (dict_get "id" (VStr "unknown") d) result), s1.
    split; [unfold_M; rewrite Hcall; reflexivity|].
    destruct (envelope_fields _ _ _ Henv) as (Hb & Hres & Herr).
    split; [exact Hb|]. split; [exact Hres|]. split; [exact Herr|].
    left. exists call, result. auto.
  - eexists _, s. split; [unfold unexpected_error, request_get; unfold_M; reflexivity|].
    split; [by exists false|].
    split; [split; intros; discriminate|]. split; [done|].
    right. exists e. auto 10.
Qed.

End Envelope.

(** C5. For a parsed request object, in either bridge, the dispatcher
    prints exactly one response. Its [success] is a boolean, its [result]
    is present (not null) exactly when [success] is true, and its [error]
    exactly when [success] is false. When the method was called (or was
    unknown), the response is the [envelope] of the result record of that
    call: its [success] is the record's; on success [result] is the record
    itself and [error] is absent, on failure [result] is absent and
    [error] is the record's [error] string. When binding the keyword
    arguments raised, the response is the unexpected-error one, without a
    [result]. *)
Theorem response_envelope env (d : dict) :
  (forall body s,
     handle_request env (real_backend env) (VDict d) = Bound body ->
     exists resp s1,
       body s = (Returns tt, (fst s1, with_print (VDict resp) (snd s1))) /\
       (exists b, dict_lookup "success" resp = Some (VBool b)) /\
       (present "result" resp = true <-> dict_lookup "success" resp = Some (VBool true)) /\
       (present "error" resp = true <-> dict_lookup "success" resp = Some (VBool false)) /\
       ((exists call result,
           route (real_backend env) (dict_get "method" (VStr "") d)
             (dict_get "params" (VDict []) d) = Bound call /\
           call s = (Returns result, s1) /\
           envelope (dict_get "id" (VStr "unknown") d) result resp) \/
        (exists e,
           route (real_backend env) (dict_get "method" (VStr "") d)
             (dict_get "params" (VDict []) d) = TypeError e /\
           s1 = s /\
           dict_lookup "id" resp = Some (dict_get "id" (VStr "unknown") d) /\
           dict_lookup "success" resp = Some (VBool false) /\
           dict_lookup "error" resp = Some (VStr ("Unexpected error: " +:+ e))))) /\
  (forall body s,
     handle_request env (mock_backend env) (VDict d) = Bound body ->
     exists resp s1,
       body s = (Returns tt, (fst s1, with_print (VDict resp) (snd s1))) /\
       (exists b, dict_lookup "success" resp = Some (VBool b)) /\
       (present "result" resp = true <-> dict_lookup "success" resp = Some (VBool true)) /\
       (present "error" resp = true <-> dict_lookup "success" resp = Some (VBool false)) /\
       ((exists call result,
           route (mock_backend env) (dict_get "method" (VStr "") d)
             (dict_get "params" (VDict []) d) = Bound call /\
           call s = (Returns result, s1) /\
           envelope (dict_get "id" (VStr "unknown") d) result resp) \/
        (exists e,
           route (mock_backend env) (dict_get "method" (VStr "") d)
             (dict_get "params" (VDict []) d) = TypeError e /\
           s1 = s /\
           dict_lookup "id" resp = Some (dict_get "id" (VStr "unknown") d) /\
           dict_lookup "success" resp = Some (VBool false) /\
           dict_lookup "error" resp = Some (VStr ("Unexpected error: " +:+ e))))).
Proof.
  split; intros body s E.
  - exact (handle_request_response env (real_backend env) (real_perform_wf env) d body s E).
  - exact (handle_request_response env (mock_backend env) (mock_perform_wf env) d body s E).
Qed.

(* ===================================================================== *)
(** * The request loop and malformed lines *)
(* ===================================================================== *)

Section Loop.
Variable env : Env.
Context {B : Type}.
Variable bk : Backend B.

Lemma run_lines_app pre : forall request post p q,
  run_lines env bk request pre = Bound p ->
  run_lines env bk (request_after env request pre) post = Bound q ->
  exists r, run_lines env bk request (pre ++ post) = Bound r /\
            forall s, r s = bind p (fun _ => q) s.
Proof.
  induction pre as [|l pre IH]; intros request post p q Hp Hq; cbn in *.
  - simplify_eq. exists q. split; [exact Hq|]. reflexivity.
  - destruct (handle_line env bk request l) as [h| |] eqn:Hl;
      destruct (run_lines env bk (next_request env request l) pre) as [k| |] eqn:Hk;
      simplify_eq.
    destruct (IH _ post k q Hk Hq) as (r & -> & Hr).
    eexists. split; [reflexivity|]. intros s. unfold_M.
    destruct (h s) as [[[]|e] s']; [|reflexivity]. apply Hr.
Qed.

Lemma handle_line_malformed request line e :
  PyStr.truthy (PyStr.strip line) = true ->
  json_loads env (PyStr.strip line) = JSONDecodeError e ->
  handle_line env bk request line = Bound (parse_error e) /\
  next_request env request line = request.
Proof. intros Ht Hj. unfold handle_line, next_request. by rewrite Ht, Hj. Qed.

Lemma handle_line_other_exception request line e :
  PyStr.truthy (PyStr.strip line) = true ->
  json_loads env (PyStr.strip line) = OtherException e ->
  handle_line env bk request line = Bound (unexpected_error env request e) /\
  next_request env request line = request.
Proof. intros Ht Hj. unfold handle_line, next_request. by rewrite Ht, Hj. Qed.

Lemma handle_line_blank request line :
  PyStr.truthy (PyStr.strip line) = false ->
  handle_line env bk request line = Bound (ret tt) /\
  next_request env request line = request.
Proof. intros Ht. unfold handle_line, next_request. by rewrite Ht. Qed.

(** A line that parses to something else than an object ends the loop:
    while the loop runs, the local [request] is unset or an object. *)
Lemma handle_line_object request line h s s1 :
  handle_line env bk request line = Bound h ->
  h s = (Returns tt, s1) ->
  object_or_unset request = true ->
  object_or_unset (next_request env request line) = true.
Proof.
  unfold handle_line, next_request. intros Hh Hs Hreq.
  destruct (negb (PyStr.truthy (PyStr.strip line))); [done|].
  destruct (json_loads env (PyStr.strip line)) as [r|e|e]; [|done|done].
  destruct r; try reflexivity; cbn in Hh; simplify_eq; cbn in Hs; discriminate.
Qed.

Lemma run_lines_object lines : forall request p s s1,
  run_lines env bk request lines = Bound p ->
  p s = (Returns tt, s1) ->
  object_or_unset request = true ->
  object_or_unset (request_after env request lines) = true.
Proof.
  induction lines as [|line rest IH]; intros request p s s1 Hp Hs Hreq; cbn in *; [done|].
  destruct (handle_line env bk request line) as [h| |] eqn:Hh;
    destruct (run_lines env bk (next_request env request line) rest) as [k| |] eqn:Hk;
    simplify_eq.
  revert Hs. unfold_M. destruct (h s) as [[[]|e] s'] eqn:Hhs; [|done]. intros Hs.
  exact (IH _ k s' s1 Hk Hs (handle_line_object request line h s s' Hh Hhs Hreq)).
Qed.

Lemma unexpected_error_prints request e (s : B * World) :
  object_or_unset request = true ->
  unexpected_error env request e s
    = (Returns tt, printed (unexpected_error_response env (stale_id request) e) s).
Proof. intros Hreq. destruct request as [[]|]; try done. Qed.

(** C6, as amended. Take a line that is not blank, anywhere in the input
    ([before] are the lines read before it, [after] those behind it).
      - When [json.loads] rejects it with [json.JSONDecodeError] and
        message [e], the loop prints exactly one response, with id
        [parse_error], [success] false and an [error] that contains [e].
      - When [json.loads] raises another exception on it, the loop prints
        exactly one response as well, with [success] false and the error
        [Unexpected error:] followed by [e]; it is not a [parse_error]
        response, and its id is read from the local [request], which an
        earlier line may have set.
    In both cases the bridge object is untouched and the loop goes on
    with the lines that follow. A blank line, one that holds white space
    only, prints nothing and changes nothing. *)
Theorem rejected_line_one_response :
  (forall line before after p k,
     PyStr.truthy (PyStr.strip line) = true ->
     run_lines env bk None before = Bound p ->
     run_lines env bk (request_after env None before) after = Bound k ->
     (forall e,
        json_loads env (PyStr.strip line) = JSONDecodeError e ->
        handle_line env bk (request_after env None before) line = Bound (parse_error e) /\
        (forall s : B * World,
           parse_error e s = (Returns tt, printed (parse_error_response e) s)) /\
        exists loop,
          run_lines env bk None (before ++ line :: after) = Bound loop /\
          forall s s1, p s = (Returns tt, s1) ->
                       loop s = k (printed (parse_error_response e) s1)) /\
     (forall e,
        json_loads env (PyStr.strip line) = OtherException e ->
        exists loop,
          run_lines env bk None (before ++ line :: after) = Bound loop /\
          forall s s1,
            p s = (Returns tt, s1) ->
            loop s = k (printed (unexpected_error_response env
                                   (stale_id (request_after env None before)) e) s1))) /\
  (forall blank request,
     PyStr.truthy (PyStr.strip blank) = false ->
     handle_line env bk request blank = Bound (ret tt) /\
     next_request env request blank = request /\
     forall s : B * World, ret tt s = (Returns tt, s)).
Proof.
  split.
  - intros line before after p k Ht Hp Hk. split; intros e Hj.
    + destruct (handle_line_malformed (request_after env None before) line e Ht Hj)
        as [Hh Hn].
      split; [exact Hh|]. split; [done|].
      assert (Hq : run_lines env bk (request_after env None before) (line :: after)
                   = Bound (parse_error e;; k)).
      { cbn [run_lines]. by rewrite Hh, Hn, Hk. }
      destruct (run_lines_app before None (line :: after) p _ Hp Hq) as (loop & Hl & Hr).
      exists loop. split; [exact Hl|]. intros s s1 Hs. rewrite Hr. unfold_M.
      by rewrite Hs.
    + destruct (handle_line_other_exception (request_after env None before) line e Ht Hj)
        as [Hh Hn].
      assert (Hq : run_lines env bk (request_after env None before) (line :: after)
                   = Bound (unexpected_error env (request_after env None before) e;; k)).
      { cbn [run_lines]. by rewrite Hh, Hn, Hk. }
      destruct (run_lines_app before None (line :: after) p _ Hp Hq) as (loop & Hl & Hr).
      exists loop. split; [exact Hl|]. intros s s1 Hs. rewrite Hr.
      pose proof (run_lines_object before None p s s1 Hp Hs eq_refl) as Hobj.
      unfold_M. rewrite Hs.
      by rewrite (unexpected_error_prints _ e s1 Hobj).
  - intros blank request Hb.
    destruct (handle_line_blank request blank Hb) as [Hh Hn]. done.
Qed.

End Loop.

Lemma rejected_line_one_response_witness :
  PyStr.truthy (PyStr.strip "  {bad json ") = true /\
  json_loads Sample.env (PyStr.strip "  {bad json ")
    = JSONDecodeError "Expecting value: line 1 column 1 (char 0)" /\
  handle_line Sample.env (mock_backend Sample.env)
    (request_after Sample.env None [Sample.line_get_model_info]) "  {bad json "
    = Bound (parse_error "Expecting value: line 1 column 1 (char 0)") /\
  PyStr.truthy (PyStr.strip Sample.line_deep) = true /\
  json_loads Sample.env (PyStr.strip Sample.line_deep)
    = OtherException
        "maximum recursion depth exceeded while decoding a JSON array from a unicode string" /\
  (exists loop,
     run_lines Sample.env (mock_backend Sample.env) None
       ([Sample.line_get_model_info] ++ [Sample.line_deep]) = Bound loop) /\
  PyStr.truthy (PyStr.strip Sample.line_nbsp) = false /\
  handle_line Sample.env (mock_backend Sample.env) None Sample.line_nbsp = Bound (ret tt).
Proof.
  split; [reflexivity|]. split; [reflexivity|].
  destruct (rejected_line_one_response Sample.env (mock_backend Sample.env)) as [Hline Hblank].
  split; [|split; [reflexivity|split; [vm_compute; reflexivity|split]]].
  - destruct (Hline "  {bad json " [Sample.line_get_model_info] []
                (match run_lines Sample.env (mock_backend Sample.env) None
                         [Sample.line_get_model_info] with
                 | Bound p => p
                 | _ => ret tt
                 end)
                (ret tt) eq_refl eq_refl eq_refl) as [Hdecode _].
    exact (proj1 (Hdecode "Expecting value: line 1 column 1 (char 0)" eq_refl)).
  - assert (Hdeep : json_loads Sample.env (PyStr.strip Sample.line_deep)
                    = OtherException
                        "maximum recursion depth exceeded while decoding a JSON array from a unicode string")
      by (vm_compute; reflexivity).
    destruct (Hline Sample.line_deep [Sample.line_get_model_info] []
                (match run_lines Sample.env (mock_backend Sample.env) None
                         [Sample.line_get_model_info] with
                 | Bound p => p
                 | _ => ret tt
                 end)
                (ret tt) eq_refl eq_refl eq_refl) as [_ Hother].
    destruct (Hother _ Hdeep) as (loop & Hloop & _).
    exists loop. exact Hloop.
  - split; [reflexivity|].
    exact (proj1 (Hblank Sample.line_nbsp None eq_refl)).
Defined.

(** The claim as the specification words it fails on a line of 1200
    opening brackets that follows a request with id 7: the line is not
    blank, [json.loads] raises on it, and the one response that the loop
    prints for it is not the [parse_error] one; it carries the id of the
    request before. The loop does go on. *)
Lemma deep_line_not_parse_error :
  PyStr.truthy (PyStr.strip Sample.line_deep) = true /\
  json_loads Sample.env (PyStr.strip Sample.line_deep)
    = OtherException
        "maximum recursion depth exceeded while decoding a JSON array from a unicode string" /\
  exists loop s,
    main Sample.env (mock_backend Sample.env)
      [Sample.line_get_model_info; Sample.line_deep; "{bad json"] = Bound loop /\
    loop (Mock.init, empty_world) = (Returns tt, s) /\
    stdout (snd s)
      = [VDict [("id", VStr "ready"); ("success", VBool true);
                ("message", VStr "Mock Coqui TTS bridge ready (development mode)");
                ("device", VStr "cpu")];
         VDict [("id", VStr "7"); ("success", VBool false); ("result", VNone);
                ("error", VStr "No model loaded")];
         VDict [("id", VStr "7"); ("success", VBool false);
                ("error",
                  VStr "Unexpected error: maximum recursion depth exceeded while decoding a JSON array from a unicode string");
                ("traceback",
                  VStr "Traceback (most recent call last): maximum recursion depth exceeded while decoding a JSON array from a unicode string")];
         parse_error_response "Expecting value: line 1 column 1 (char 0)"].
Proof.
  split; [reflexivity|]. split; [vm_compute; reflexivity|].
  do 2 eexists. vm_compute. auto.
Qed.

(* ===================================================================== *)
(** * list_available_models *)
(* ===================================================================== *)

Lemma take_all_subseteq (l k : list string) n :
  (length l <= n)%nat -> k ⊆ l -> k ⊆ take n l.
Proof. intros Hn Hk. by rewrite take_ge. Qed.

(** C7, as the code has it. A successful [list_available_models] of the
    real bridge returns as [bangla_models] exactly the entries of the whole
    catalog that contain "bn", "bangla" or "bengali" case-insensitively, and
    as [all_models] the first 20 entries of the catalog; [bangla_models] is
    within the returned [all_models] when the catalog has at most 20
    entries. The mock returns its whole catalog of five, and the two
    entries with "bn" as [bangla_models]. *)
Theorem bangla_models_filter env s w models :
  list_models env = Returns models ->
  Real.list_available_models env (s, w) = (Returns (listing models), (s, w)) /\
  (forall m, m ∈ filter (fun model => is_bangla model = true) models <->
             m ∈ models /\ names_bangla m) /\
  ((length models <= 20)%nat ->
   filter (fun model => is_bangla model = true) models ⊆ take 20 models) /\
  (forall sm wm,
     Mock.list_available_models (sm, wm)
       = (Returns [("success", VBool true);
                   ("all_models", VList (map VStr Mock.all_models));
                   ("bangla_models",
                     VList (map VStr (filter (fun model => is_bangla model = true)
                                        Mock.all_models)));
                   ("total_models", VInt 5)], (sm, wm))) /\
  filter (fun model => is_bangla model = true) Mock.all_models
    = ["tts_models/bn/custom/bangla-model-v1"; "tts_models/bn/custom/bangla-model-v2"] /\
  filter (fun model => is_bangla model = true) Mock.all_models ⊆ Mock.all_models.
Proof.
  intros Hl. split; [|split; [|split; [|split; [|split]]]].
  - unfold Real.list_available_models. unfold_M. by rewrite Hl.
  - intros m. rewrite list_elem_of_filter, is_bangla_spec. tauto.
  - intros Hn. apply take_all_subseteq; [exact Hn|].
    intros m Hm. apply list_elem_of_filter in Hm. tauto.
  - reflexivity.
  - reflexivity.
  - intros m Hm. apply list_elem_of_filter in Hm. tauto.
Qed.

(** C7, the claim as stated, fails on a catalog of 21 models whose last
    entry is a Bangla model: it is in [bangla_models] and not in the
    returned [all_models]. *)
Lemma bangla_model_outside_all_models :
  exists all bangla,
    Real.list_available_models Sample.env (Real.init Sample.env, empty_world)
      = (Returns [("success", VBool true);
                  ("all_models", VList (map VStr all));
                  ("bangla_models", VList (map VStr bangla));
                  ("total_models", VInt 21)],
         (Real.init Sample.env, empty_world)) /\
    "tts_models/bn/custom/vits-male" ∈ bangla /\
    "tts_models/bn/custom/vits-male" ∉ all.
Proof.
  exists (take 20 Sample.catalog), ["tts_models/bn/custom/vits-male"].
  split; [reflexivity|]. split; [apply list_elem_of_here|].
  apply (bool_decide_eq_false_1 _). vm_compute. reflexivity.
Qed.

Lemma bangla_models_filter_witness :
  list_models Sample.env = Returns Sample.catalog /\
  Real.list_available_models Sample.env (Real.init Sample.env, empty_world)
    = (Returns (listing Sample.catalog), (Real.init Sample.env, empty_world)).
Proof.
  split; [reflexivity|].
  apply (bangla_models_filter Sample.env (Real.init Sample.env) empty_world Sample.catalog).
  reflexivity.
Defined.

(* ===================================================================== *)
(** * The size of the mock audio *)
(* ===================================================================== *)

Lemma round53_magnitude m e :
  0 < m ->
  0 < PyFloat.mant (PyFloat.round53 m e) /\ Z.log2 m + e <= flog (PyFloat.round53 m e).
Proof.
  intros Hm. unfold PyFloat.round53, flog.
  destruct (m <? 0) eqn:E; [lia|]. unfold PyFloat.round53_pos.
  destruct (Z.log2 m + 1 - 53 <=? 0) eqn:Hk; cbn [PyFloat.mant PyFloat.expo]; [lia|].
  set (k := Z.log2 m + 1 - 53) in *.
  set (q := Z.shiftr m k).
  assert (Hlq : Z.log2 q = 52).
  { unfold q. rewrite Z.log2_shiftr by lia. lia. }
  assert (Hq : 0 < q).
  { destruct (Z_lt_le_dec 0 q) as [|Hle]; [done|]. apply Z.log2_nonpos in Hle. lia. }
  match goal with
  | |- 0 < ?q' /\ _ => assert (Hq' : q <= q') by (repeat case_match; lia)
  end.
  split; [lia|]. apply Z.log2_le_mono in Hq'. lia.
Qed.

Lemma fmul_magnitude x y :
  0 < PyFloat.mant x -> 0 < PyFloat.mant y ->
  0 < PyFloat.mant (PyFloat.fmul x y) /\ flog x + flog y <= flog (PyFloat.fmul x y).
Proof.
  intros Hx Hy. unfold PyFloat.fmul.
  destruct (round53_magnitude (PyFloat.mant x * PyFloat.mant y) (PyFloat.expo x + PyFloat.expo y))
    as [Hpos Hlog]; [lia|].
  split; [exact Hpos|].
  pose proof (Z.log2_mul_below _ _ Hx Hy). unfold flog in *. lia.
Qed.

Lemma of_int_magnitude n :
  1 <= n -> 0 < PyFloat.mant (PyFloat.of_int n) /\ 0 <= flog (PyFloat.of_int n).
Proof.
  intros Hn. unfold PyFloat.of_int.
  destruct (round53_magnitude n 0) as [Hpos Hlog]; [lia|].
  split; [exact Hpos|]. pose proof (Z.log2_nonneg n). lia.
Qed.

Lemma to_int_magnitude x j :
  0 < PyFloat.mant x -> 0 <= j <= flog x -> 2 ^ j <= PyFloat.to_int x.
Proof.
  intros Hm [Hj Hl]. unfold flog in Hl. unfold PyFloat.to_int.
  destruct (Z.log2_spec _ Hm) as [Hlow _].
  pose proof (Z.log2_nonneg (PyFloat.mant x)) as Ha.
  set (a := Z.log2 (PyFloat.mant x)) in *. set (e := PyFloat.expo x) in *.
  destruct (0 <=? e) eqn:He.
  - apply Z.leb_le in He.
    transitivity (2 ^ (a + e)); [apply Z.pow_le_mono_r; lia|].
    rewrite Z.pow_add_r by lia.
    apply Z.mul_le_mono_nonneg_r; [apply Z.pow_nonneg; lia | exact Hlow].
  - apply Z.leb_gt in He.
    assert (Hp : 0 < 2 ^ (- e)) by (apply Z.pow_pos_nonneg; lia).
    rewrite Z.quot_div_nonneg by lia.
    transitivity (2 ^ (a + e)); [apply Z.pow_le_mono_r; lia|].
    replace (2 ^ (a + e)) with (2 ^ (a + e) * 2 ^ (- e) / 2 ^ (- e))
      by (apply Z.div_mul; lia).
    apply Z.div_le_mono; [exact Hp|].
    rewrite <- Z.pow_add_r by lia. replace (a + e + - e) with a by lia. exact Hlow.
Qed.

Lemma samples_of_nonempty text :
  1 <= PyStr.len text -> 1000 <= Mock.samples_of text.
Proof.
  intros Hlen. unfold Mock.samples_of.
  destruct (of_int_magnitude (PyStr.len text) Hlen) as [Hp1 Hl1].
  destruct (fmul_magnitude (PyFloat.of_int (PyStr.len text)) PyFloat.f_0_1 Hp1)
    as [Hp2 Hl2]; [reflexivity|].
  destruct (of_int_magnitude Mock.sample_rate) as [Hp3 Hl3]; [unfold Mock.sample_rate; lia|].
  destruct (fmul_magnitude _ _ Hp2 Hp3) as [Hp4 Hl4].
  assert (Hsr : flog (PyFloat.of_int Mock.sample_rate) = 14) by reflexivity.
  assert (H01 : flog PyFloat.f_0_1 = -4) by reflexivity.
  pose proof (to_int_magnitude _ 10 Hp4) as H. change (2 ^ 10) with 1024 in H.
  lia.
Qed.

Lemma samples_of_empty : Mock.samples_of EmptyString = 0.
Proof. reflexivity. Qed.

(** C10. While the mock has a model loaded, [synthesize_speech] returns a
    record whose [audio_data] is the base64 text of the generated bytes and
    whose [audio_length] is their number, so the number of bytes of the
    decoded [audio_data]; that number is 0 for the empty text and 1000 for
    every other text. *)
Theorem mock_audio_length env text spk lang speed s w :
  Mock.path_truthy (Mock.current_model_path s) = true ->
  exists data w',
    Mock.synthesize_speech env text spk lang speed (s, w)
      = (Returns [("success", VBool true);
                  ("audio_data", VStr (Base64.b64encode data));
                  ("audio_length", VInt (Z.of_nat (length data)));
                  ("text_length", VInt (PyStr.len text));
                  ("language", VStr lang);
                  ("speaker_wav", opt_str_value spk);
                  ("processing_time",
                    VFloat (PyFloat.fmul (PyFloat.of_int (PyStr.len text)) PyFloat.f_0_01))],
         (s, w')) /\
    Base64.b64decode (Base64.b64encode data) = Some data /\
    Z.of_nat (length data) = match text with EmptyString => 0 | String _ _ => 1000 end.
Proof.
  intros Hloaded. unfold Mock.synthesize_speech. unfold_M. cbn. rewrite Hloaded. cbn.
  destruct (mock_fill_audio_returns env text (seqZ 0 (Z.min (Mock.samples_of text) 1000)) []
              (s, with_tick w)) as (data & -> & Hlen & Hbytes); [constructor|].
  exists data, (with_tick w). split; [reflexivity|]. split; [by apply b64_roundtrip|].
  rewrite Hlen, length_seqZ. cbn [length]. destruct text as [|c text].
  - rewrite samples_of_empty. reflexivity.
  - pose proof (samples_of_nonempty (String c text)) as H.
    unfold PyStr.len in H at 1. cbn [String.length] in H. lia.
Qed.

Lemma mock_audio_length_witness :
  Mock.path_truthy (Mock.current_model_path (fst Sample.mock_loaded_a)) = true /\
  exists data w',
    Mock.synthesize_speech Sample.env "hello" None "bn" (VFloat PyFloat.f_1_0)
      (fst Sample.mock_loaded_a, snd Sample.mock_loaded_a)
      = (Returns [("success", VBool true);
                  ("audio_data", VStr (Base64.b64encode data));
                  ("audio_length", VInt (Z.of_nat (length data)));
                  ("text_length", VInt (PyStr.len "hello"));
                  ("language", VStr "bn");
                  ("speaker_wav", opt_str_value None);
                  ("processing_time",
                    VFloat (PyFloat.fmul (PyFloat.of_int (PyStr.len "hello")) PyFloat.f_0_01))],
         (fst Sample.mock_loaded_a, w')) /\
    Base64.b64decode (Base64.b64encode data) = Some data /\
    Z.of_nat (length data) = 1000.
Proof.
  split; [reflexivity|].
  apply (mock_audio_length Sample.env "hello" None "bn" (VFloat PyFloat.f_1_0)
           (fst Sample.mock_loaded_a) (snd Sample.mock_loaded_a)).
  reflexivity.
Defined.

(* ===================================================================== *)
(** * The mock against the real bridge *)
(* ===================================================================== *)

Lemma succeeded_failure prefix e tb : succeeded (failure prefix e tb) = false.
Proof. reflexivity. Qed.




Lemma real_unload_unloaded env s w :
  Real.tts_model s = None ->
  Real.unload_model env (s, w) = (Returns nothing_to_unload, (s, w)).
Proof. intros H. unfold Real.unload_model. unfold_M. cbn. by rewrite H. Qed.




(* ===================================================================== *)
(** * The embedding on the sample environment *)
(* ===================================================================== *)

Lemma load_model_same_path_noop_witness :
  Real.load_model Sample.env "tts_models/bn/a" (Some "cfg.json") None false
    (fst Sample.loaded_a, snd Sample.loaded_a)
    = (Returns (already_loaded (Real.model_info (fst Sample.loaded_a))),
       (fst Sample.loaded_a, snd Sample.loaded_a)).
Proof.
  apply (proj1 (load_model_same_path_noop Sample.env "tts_models/bn/a"));
    [by eexists | reflexivity].
Defined.

Lemma not_loaded_guard_witness :
  Real.get_model_info (Real.init Sample.env, empty_world)
    = (Returns no_model_loaded, (Real.init Sample.env, empty_world)).
Proof.
  destruct (proj1 (not_loaded_guard Sample.env) (Real.init Sample.env) empty_world eq_refl)
    as [H _].
  exact H.
Defined.

Lemma response_envelope_witness :
  exists body resp s1,
    handle_request Sample.env (mock_backend Sample.env)
      (VDict [("id", VStr "7"); ("method", VStr "get_model_info")]) = Bound body /\
    body (Mock.init, empty_world)
      = (Returns tt, (fst s1, with_print (VDict resp) (snd s1))) /\
    (exists b, dict_lookup "success" resp = Some (VBool b)) /\
    (present "error" resp = true <-> dict_lookup "success" resp = Some (VBool false)).
Proof.
  eexists.
  destruct (proj2 (response_envelope Sample.env
                     [("id", VStr "7"); ("method", VStr "get_model_info")])
              _ (Mock.init, empty_world) eq_refl)
    as (resp & s1 & E & Hb & _ & Herr & _).
  exists resp, s1. split; [reflexivity|]. split; [assumption|]. split; assumption.
Defined.

(** The mock's guard tests the truth value of [current_model_path]: with
    no path, or with the empty path, it reports that no model is loaded. *)
Lemma mock_not_loaded_guard env s w :
  Mock.path_truthy (Mock.current_model_path s) = false ->
  Mock.get_model_info (s, w) = (Returns no_model_loaded, (s, w)) /\
  forall t spk lang speed,
    Mock.synthesize_speech env t spk lang speed (s, w)
      = (Returns no_model_loaded_synth, (s, w)).
Proof.
  intros H. split.
  - unfold Mock.get_model_info. unfold_M. cbn. by rewrite H.
  - intros. unfold Mock.synthesize_speech. unfold_M. cbn. by rewrite H.
Qed.

Lemma mock_loaded_after_load env X cfg spk gpu s w r s1 w1 :
  X <> EmptyString ->
  Mock.load_model env X cfg spk gpu (s, w) = (Returns r, (s1, w1)) ->
  Mock.get_model_info (s1, w1)
    = (Returns [("success", VBool true); ("model_info", VDict (Mock.model_info s1))], (s1, w1)).
Proof.
  intros HX E. destruct (mock_load_model_success _ _ _ _ _ _ _ _ _ _ E) as [Hp _].
  unfold Mock.get_model_info. unfold_M. cbn. rewrite Hp. cbn.
  destruct X; [done | reflexivity].
Qed.

Example sample_mock_empty_path :
  exists r s1 r',
    Mock.load_model Sample.env "" None None true (Mock.init, empty_world) = (Returns r, s1) /\
    succeeded r = true /\
    Mock.get_model_info s1 = (Returns r', s1) /\
    r' = no_model_loaded.
Proof. do 3 eexists. vm_compute. auto. Qed.

(** The end-to-end scenario of the specification, on the real bridge:
    load, synthesize, unload, synthesize again. *)
Example sample_scenario :
  exec (real_backend Sample.env)
    [LoadModel "tts_models/bn/x" None None true;
     SynthesizeSpeech "hello" None "bn" (VFloat PyFloat.f_1_0);
     UnloadModel]
    (Real.init Sample.env, empty_world)
  = (Real.init Sample.env,
     {| fs := ∅;
        trace :=
          [EvTTS (Pretrained "tts_models/bn/x") "cuda";
           EvTtsToFile Sample.model_a
             {| sr_text := "hello"; sr_speaker_wav := None; sr_speaker := Some "s1";
                sr_language := "bn"; sr_file_path := "/tmp/tmpk3x9.wav";
                sr_speed := VFloat PyFloat.f_1_0 |};
           EvDrop Sample.model_a;
           EvEmptyCache];
        ticks := 0; stdout := [] |}) /\
  fst (Real.load_model Sample.env "tts_models/bn/x" None None true
         (Real.init Sample.env, empty_world))
  = Returns [("success", VBool true);
             ("message", VStr "Model loaded successfully on cuda");
             ("model_info",
               VDict [("name", VStr "x"); ("path", VStr "tts_models/bn/x");
                      ("device", VStr "cuda"); ("language", VStr "unknown");
                      ("loaded_at", VStr "unknown");
                      ("speakers", VList [VStr "s1"; VStr "s2"]);
                      ("use_gpu", VBool true)])] /\
  fst (Real.synthesize_speech Sample.env "hello" None "bn" (VFloat PyFloat.f_1_0)
         (Real.init Sample.env, empty_world))
  = Returns no_model_loaded_synth.
Proof. vm_compute. repeat split. Qed.

(** The loop of the mock on a blank line, a malformed line and a request:
    the ready message, one [parse_error] response and the answer. *)
Example sample_main :
  exists loop s,
    main Sample.env (mock_backend Sample.env)
      ["   "; "{bad json"; Sample.line_get_model_info] = Bound loop /\
    loop (Mock.init, empty_world) = (Returns tt, s) /\
    stdout (snd s)
      = [VDict [("id", VStr "ready"); ("success", VBool true);
                ("message", VStr "Mock Coqui TTS bridge ready (development mode)");
                ("device", VStr "cpu")];
         parse_error_response "Expecting value: line 1 column 1 (char 0)";
         VDict [("id", VStr "7"); ("success", VBool false); ("result", VNone);
                ("error", VStr "No model loaded")]].
Proof. do 2 eexists. vm_compute. auto. Qed.

(** A line that is JSON but not an object: [request.get] raises in the
    [try] and again in its handler, and the loop ends with [fatal_error];
    the request behind it is not read. *)
Example sample_main_non_object :
  exists loop s,
    main Sample.env (mock_backend Sample.env) ["17"; Sample.line_get_model_info]
      = Bound loop /\
    loop (Mock.init, empty_world) = (Returns tt, s) /\
    stdout (snd s)
      = [VDict [("id", VStr "ready"); ("success", VBool true);
                ("message", VStr "Mock Coqui TTS bridge ready (development mode)");
                ("device", VStr "cpu")];
         VDict [("id", VStr "fatal_error"); ("success", VBool false);
                ("error", VStr "Fatal error: object has no attribute 'get'");
                ("traceback",
                  VStr "Traceback (most recent call last): object has no attribute 'get'")]].
Proof. do 2 eexists. vm_compute. auto. Qed.

(* ===================================================================== *)
(** * unload_model *)
(* ===================================================================== *)

(** X1. With a model loaded, the real [unload_model] reports success,
    clears [tts_model], [current_model_path] and [model_info] together,
    drops the handle and empties the CUDA cache exactly when CUDA is
    available. A second [unload_model] right after is a success no-op on
    object and world, and [get_model_info] now reports that no model is
    loaded. *)
Theorem real_unload_clears_and_releases env s w m :
  Real.tts_model s = Some m ->
  Real.unload_model env (s, w)
    = (Returns [("success", VBool true); ("message", VStr "Model unloaded successfully")],
       (real_cleared s, released env m w)) /\
  Real.unload_model env (real_cleared s, released env m w)
    = (Returns nothing_to_unload, (real_cleared s, released env m w)) /\
  Real.get_model_info (real_cleared s, released env m w)
    = (Returns no_model_loaded, (real_cleared s, released env m w)).
Proof.
  intros Hm. split; [|split].
  - unfold Real.unload_model, Real.set_tts_model, Real.set_current_model_path,
      Real.set_model_info, released, real_cleared.
    unfold_M. cbn. repeat (rewrite Hm; cbn). destruct (cuda_is_available env); reflexivity.
  - by apply real_unload_unloaded.
  - reflexivity.
Qed.

Lemma real_unload_clears_and_releases_witness :
  Real.tts_model (fst Sample.loaded_a) = Some Sample.model_a /\
  Real.unload_model Sample.env (fst Sample.loaded_a, snd Sample.loaded_a)
    = (Returns [("success", VBool true); ("message", VStr "Model unloaded successfully")],
       (real_cleared (fst Sample.loaded_a),
        released Sample.env Sample.model_a (snd Sample.loaded_a))).
Proof.
  split; [reflexivity|].
  apply (real_unload_clears_and_releases Sample.env (fst Sample.loaded_a)
           (snd Sample.loaded_a) Sample.model_a).
  reflexivity.
Defined.

(** X2. The mock's [unload_model] tests the truth value of
    [current_model_path]. With a non-empty path it clears path and
    [model_info] and touches nothing else; a second call is then a success
    no-op. With no path or the empty path it is a success no-op that leaves
    the object as it is, a [model_info] stored under the empty path
    included. *)
Theorem mock_unload_clears env s w :
  (Mock.path_truthy (Mock.current_model_path s) = true ->
   Mock.unload_model (s, w)
     = (Returns [("success", VBool true);
                 ("message", VStr "Mock model unloaded successfully")],
        (mock_cleared s, w)) /\
   Mock.unload_model (mock_cleared s, w) = (Returns nothing_to_unload, (mock_cleared s, w)) /\
   Mock.get_model_info (mock_cleared s, w) = (Returns no_model_loaded, (mock_cleared s, w))) /\
  (Mock.path_truthy (Mock.current_model_path s) = false ->
   Mock.unload_model (s, w) = (Returns nothing_to_unload, (s, w))) /\
  (forall cfg spk gpu r s1 w1,
     Mock.load_model env "" cfg spk gpu (s, w) = (Returns r, (s1, w1)) ->
     Mock.unload_model (s1, w1) = (Returns nothing_to_unload, (s1, w1)) /\
     Mock.current_model_path s1 = Some EmptyString).
Proof.
  split; [|split].
  - intros H. split; [|split]; try reflexivity.
    unfold Mock.unload_model, Mock.set_current_model_path, Mock.set_model_info.
    unfold_M. cbn. by rewrite H.
  - intros H. unfold Mock.unload_model. unfold_M. cbn. by rewrite H.
  - intros cfg spk gpu r s1 w1 E.
    destruct (mock_load_model_success _ _ _ _ _ _ _ _ _ _ E) as [Hp _].
    split; [|exact Hp]. unfold Mock.unload_model. unfold_M. cbn. by rewrite Hp.
Qed.

(* ===================================================================== *)
(** * load_model: local files and the device *)
(* ===================================================================== *)

(** X3. A [load_model] of the real bridge for a path outside
    [tts_models/] that is not the loaded one fails without calling the
    constructor when the model file does not exist, and also when a
    non-empty [config_path] names a file that does not exist: the error
    names the missing file, and object and world are untouched. *)
Theorem real_load_missing_file env X cfg spk gpu s w :
  PyStr.startswith "tts_models/" X = false ->
  Real.current_model_path s <> Some X ->
  (fs w !! X = None ->
   Real.load_model env X cfg spk gpu (s, w)
     = (Returns (failure "Failed to load model: " ("Model file not found: " +:+ X)
                   (Some (format_exc env ("Model file not found: " +:+ X)))),
        (s, w))) /\
  (forall c, is_Some (fs w !! X) -> cfg = Some c -> PyStr.truthy c = true ->
             fs w !! c = None ->
   Real.load_model env X cfg spk gpu (s, w)
     = (Returns (failure "Failed to load model: " ("Config file not found: " +:+ c)
                   (Some (format_exc env ("Config file not found: " +:+ c)))),
        (s, w))).
Proof.
  intros Hpre Hcur.
  assert (Hnot : bool_decide (is_Some (Real.tts_model s)) &&
                 bool_decide (Real.current_model_path s = Some X) = false).
  { rewrite (bool_decide_eq_false_2 _ Hcur). apply andb_false_r. }
  split.
  - intros Hfile. unfold Real.load_model. unfold_M. cbn. rewrite Hnot, Hpre. cbn.
    rewrite Hfile. rewrite bool_decide_eq_false_2 by (intros [? ?]; discriminate).
    reflexivity.
  - intros c Hfile -> Hc Hcfg. unfold Real.load_model. unfold_M. cbn.
    rewrite Hnot, Hpre. cbn.
    rewrite (bool_decide_eq_true_2 _ Hfile). cbn. rewrite Hc. cbn. rewrite Hcfg.
    rewrite bool_decide_eq_false_2 by (intros [? ?]; discriminate).
    reflexivity.
Qed.

Lemma real_load_missing_file_witness :
  PyStr.startswith "tts_models/" "/models/none.pth" = false /\
  Real.current_model_path (Real.init Sample.env) <> Some "/models/none.pth" /\
  Real.load_model Sample.env "/models/none.pth" None None true
    (Real.init Sample.env, empty_world)
  = (Returns (failure "Failed to load model: " "Model file not found: /models/none.pth"
                (Some (format_exc Sample.env "Model file not found: /models/none.pth"))),
     (Real.init Sample.env, empty_world)).
Proof.
  split; [reflexivity|]. split; [discriminate|].
  apply (real_load_missing_file Sample.env "/models/none.pth" None None true
           (Real.init Sample.env) empty_world);
    [reflexivity | discriminate | reflexivity].
Defined.

(** X4. When the real [load_model] loads a model that was not the loaded
    one, the stored [model_info] records the resolved device, "cuda" only
    if a GPU was asked for and CUDA is available and "cpu" otherwise, a
    [use_gpu] flag that says the same, the path as given and its base name;
    the [device] attribute of the bridge, sent in the ready message, is not
    changed by it. *)
Theorem real_load_records_device env X cfg spk gpu s w r s1 w1 :
  Real.current_model_path s <> Some X ->
  Real.load_model env X cfg spk gpu (s, w) = (Returns r, (s1, w1)) ->
  succeeded r = true ->
  dict_lookup "device" (Real.model_info s1) = Some (VStr (resolved_device env gpu)) /\
  dict_lookup "use_gpu" (Real.model_info s1) = Some (VBool (gpu && cuda_is_available env)) /\
  dict_lookup "path" (Real.model_info s1) = Some (VStr X) /\
  dict_lookup "name" (Real.model_info s1) = Some (VStr (PyStr.basename X)) /\
  dict_lookup "message" r
    = Some (VStr ("Model loaded successfully on " +:+ resolved_device env gpu)) /\
  Real.device s1 = Real.device s.
Proof.
  intros Hcur.
  assert (Hnot : bool_decide (is_Some (Real.tts_model s)) &&
                 bool_decide (Real.current_model_path s = Some X) = false).
  { rewrite (bool_decide_eq_false_2 _ Hcur). apply andb_false_r. }
  unfold Real.load_model, Real.new_TTS, Real.set_tts_model, Real.set_current_model_path,
    Real.set_model_info, resolved_device.
  unfold_M. cbn. rewrite Hnot.
  repeat (break_match; cbn); intros E Hs; simplify_eq;
    rewrite ?succeeded_failure in Hs; try discriminate; cbn;
    repeat split; reflexivity.
Qed.

Lemma real_load_records_device_witness :
  Real.current_model_path (Real.init Sample.env) <> Some "tts_models/bn/a" /\
  dict_lookup "device"
    (Real.model_info
       (fst (snd (Real.load_model Sample.env "tts_models/bn/a" None None false
                    (Real.init Sample.env, empty_world)))))
  = Some (VStr "cpu").
Proof.
  split; [discriminate|].
  pose (run := Real.load_model Sample.env "tts_models/bn/a" None None false
                 (Real.init Sample.env, empty_world)).
  destruct (real_load_records_device Sample.env "tts_models/bn/a" None None false
              (Real.init Sample.env) empty_world
              (match fst run with Returns r => r | Raises _ => [] end)
              (fst (snd run)) (snd (snd run)))
    as (Hdev & _); [discriminate | reflexivity | reflexivity |].
  exact Hdev.
Defined.

(* ===================================================================== *)
(** * synthesize_speech: the voice and the payload *)
(* ===================================================================== *)

(** X5. A real [synthesize_speech] that has a model and got its temporary
    file calls [tts_to_file] exactly once, whatever comes of it, writing to
    the temporary file with the text, language and speed as given, and with
    the voice chosen in this order: the reference recording, if one is
    given, is not the empty string and exists; else the first speaker, if
    the model lists speakers; else neither. *)
Theorem synthesize_chooses_voice env t spk lang speed s w m temp_path :
  Real.tts_model s = Some m ->
  NamedTemporaryFile env (fs w) = Returns temp_path ->
  exists r w',
    Real.synthesize_speech env t spk lang speed (s, w) = (Returns r, (s, w')) /\
    trace w' = trace w ++
      [EvTtsToFile m
         (chosen_request m (<[temp_path := []]> (fs w)) t spk lang speed temp_path)].
Proof.
  intros Hm Htmp.
  unfold Real.synthesize_speech, Real.make_temp_file, Real.call_tts_to_file,
    chosen_request, chosen_voice.
  unfold_M. cbn. rewrite Hm. cbn. rewrite Htmp. cbn.
  destruct spk as [sw|]; [destruct (PyStr.truthy sw)|]; cbn;
    try destruct (bool_decide (is_Some (<[temp_path:=[]]> (fs w) !! sw))); cbn;
    try destruct (Real.first_speaker m); cbn.
  all: match goal with
       | |- context [tts_to_file _ _ ?req ?f] =>
           destruct (tts_to_file env m req f) as [[[]|e] f'] eqn:E; cbn
       end.
  all: destruct (f' !! temp_path) as [data|] eqn:Hf; cbn; rewrite ?Hf; cbn.
  all: repeat case_bool_decide; cbn.
  all: do 2 eexists; split; reflexivity.
Qed.

Lemma synthesize_chooses_voice_witness :
  Real.tts_model (fst Sample.loaded_a) = Some Sample.model_a /\
  NamedTemporaryFile Sample.env (fs (snd Sample.loaded_a)) = Returns "/tmp/tmpk3x9.wav" /\
  exists r w',
    Real.synthesize_speech Sample.env "hello" (Some "/voices/ref.wav") "bn"
      (VFloat PyFloat.f_1_0) (fst Sample.loaded_a, snd Sample.loaded_a)
    = (Returns r, (fst Sample.loaded_a, w')) /\
    trace w' = trace (snd Sample.loaded_a) ++
      [EvTtsToFile Sample.model_a
         (chosen_request Sample.model_a (<["/tmp/tmpk3x9.wav" := []]> (fs (snd Sample.loaded_a)))
            "hello" (Some "/voices/ref.wav") "bn" (VFloat PyFloat.f_1_0)
            "/tmp/tmpk3x9.wav")].
Proof.
  split; [reflexivity|]. split; [reflexivity|].
  apply (synthesize_chooses_voice Sample.env "hello" (Some "/voices/ref.wav") "bn"
           (VFloat PyFloat.f_1_0) (fst Sample.loaded_a) (snd Sample.loaded_a)
           Sample.model_a "/tmp/tmpk3x9.wav");
    reflexivity.
Defined.

(** A reference recording that does not exist is passed over without an
    error: the first speaker of the model is used. *)
Example sample_missing_reference_falls_back :
  chosen_request Sample.model_a (<["/tmp/tmpk3x9.wav" := []]> ∅)
    "hello" (Some "/voices/ref.wav") "bn" (VFloat PyFloat.f_1_0) "/tmp/tmpk3x9.wav"
  = {| sr_text := "hello"; sr_speaker_wav := None; sr_speaker := Some "s1";
       sr_language := "bn"; sr_file_path := "/tmp/tmpk3x9.wav";
       sr_speed := VFloat PyFloat.f_1_0 |}.
Proof. reflexivity. Qed.

(** X6. When [tts_to_file] returns and has left [data] in the temporary
    file, the real [synthesize_speech] returns exactly: success, the base64
    text of [data], the number of bytes of [data], the length of the text,
    and the language and [speaker_wav] as they were given; decoding
    [audio_data] gives [data] back. *)
Theorem synthesize_returns_audio env t spk lang speed s w m temp_path data :
  Real.tts_model s = Some m ->
  NamedTemporaryFile env (fs w) = Returns temp_path ->
  (forall req, sr_file_path req = temp_path -> sr_text req = t ->
     exists f', tts_to_file env m req (<[temp_path := []]> (fs w)) = (Returns tt, f') /\
                f' !! temp_path = Some data) ->
  Forall Base64.is_byte data ->
  (exists w',
     Real.synthesize_speech env t spk lang speed (s, w)
       = (Returns [("success", VBool true);
                   ("audio_data", VStr (Base64.b64encode data));
                   ("audio_length", VInt (Z.of_nat (length data)));
                   ("text_length", VInt (PyStr.len t));
                   ("language", VStr lang);
                   ("speaker_wav", opt_str_value spk)], (s, w'))) /\
  Base64.b64decode (Base64.b64encode data) = Some data.
Proof.
  intros Hm Htmp Hok Hbytes. split; [|by apply b64_roundtrip].
  assert (Hcall : forall req, sr_file_path req = temp_path -> sr_text req = t ->
            exists f',
              tts_to_file env m req (<[temp_path := []]> (fs w)) = (Returns tt, f') /\
              f' !! temp_path = Some data /\
              bool_decide (is_Some (f' !! temp_path)) = true).
  { intros req Hp Ht. destruct (Hok req Hp Ht) as (f' & E & Hf).
    exists f'. split; [exact E|]. split; [exact Hf|].
    apply bool_decide_eq_true_2. eauto. }
  unfold Real.synthesize_speech, Real.make_temp_file, Real.call_tts_to_file.
  unfold_M. cbn. rewrite Hm. cbn. rewrite Htmp. cbn.
  destruct spk as [sw|]; [destruct (PyStr.truthy sw)|]; cbn;
    try destruct (bool_decide (is_Some (<[temp_path:=[]]> (fs w) !! sw))); cbn;
    try destruct (Real.first_speaker m); cbn.
  all: match goal with
       | |- context [tts_to_file _ _ ?req _] =>
           destruct (Hcall req eq_refl eq_refl) as (f' & E & Hf & Hb);
           rewrite E; cbn; rewrite Hf; cbn; rewrite Hb; cbn
       end.
  all: eexists; reflexivity.
Qed.

Lemma synthesize_returns_audio_witness :
  Real.tts_model (fst Sample.loaded_a) = Some Sample.model_a /\
  NamedTemporaryFile Sample.env (fs (snd Sample.loaded_a)) = Returns "/tmp/tmpk3x9.wav" /\
  Forall Base64.is_byte Sample.riff /\
  Base64.b64decode (Base64.b64encode Sample.riff) = Some Sample.riff.
Proof.
  split; [reflexivity|]. split; [reflexivity|].
  assert (Hb : Forall Base64.is_byte Sample.riff).
  { repeat constructor; unfold Base64.is_byte; lia. }
  split; [exact Hb|].
  apply (synthesize_returns_audio Sample.env "hello" None "bn" (VFloat PyFloat.f_1_0)
           (fst Sample.loaded_a) (snd Sample.loaded_a) Sample.model_a
           "/tmp/tmpk3x9.wav" Sample.riff);
    [reflexivity | reflexivity | | exact Hb].
  intros req Hp Ht. eexists. cbn. rewrite Ht, Hp. cbn. split; [reflexivity|].
  apply lookup_insert_eq.
Defined.

(* ===================================================================== *)
(** * main: unknown methods, keyword arguments, lines that are no objects *)
(* ===================================================================== *)

Lemma not_a_method name other :
  name ∉ method_names -> other ∈ method_names -> String.eqb name other = false.
Proof.
  intros Hn Ho. destruct (String.eqb_spec name other) as [->|]; [contradiction|reflexivity].
Qed.

Lemma check_names_raises fname names required params :
  kwargs_fit names required params = false ->
  exists e, check_names fname names required params = Raises e.
Proof.
  unfold kwargs_fit, check_names. destruct params as [| | | | | |kv]; eauto.
  destruct (find _ kv) as [[k v]|] eqn:Hextra; [eauto|].
  destruct (find _ required) as [k|] eqn:Hmissing; [eauto|].
  intros Hfit. exfalso.
  apply andb_false_iff in Hfit as [Hfit|Hfit];
    apply not_true_iff_false in Hfit; apply Hfit, forallb_forall; intros x Hx.
  - apply (find_none _ _ Hextra) in Hx. by apply negb_false_iff in Hx.
  - apply (find_none _ _ Hmissing) in Hx. by apply negb_false_iff in Hx.
Qed.

Section Dispatch.
Variable env : Env.
Context {B : Type}.
Variable bk : Backend B.

(** X7. A request whose [method] is a string other than the five names
    (the empty string when [method] is missing) calls no method: the
    bridge object and the world are untouched and one response is printed,
    with the request's id, [success] false, no [result], and an [error]
    that names the method. *)
Theorem unknown_method_response (d : dict) (name : string) (s : B * World) :
  dict_get "method" (VStr "") d = VStr name ->
  name ∉ method_names ->
  exists body,
    handle_request env bk (VDict d) = Bound body /\
    body s = (Returns tt,
              printed (VDict [("id", dict_get "id" (VStr "unknown") d);
                              ("success", VBool false);
                              ("result", VNone);
                              ("error", VStr ("Unknown method: " +:+ name))]) s).
Proof.
  intros Hm Hn. unfold handle_request, dispatch, route. rewrite Hm.
  rewrite !(not_a_method name) by (exact Hn || (unfold method_names; set_solver)).
  eexists. split; reflexivity.
Qed.

Lemma type_error_response (d : dict) (e : string) (s : B * World) :
  route bk (dict_get "method" (VStr "") d) (dict_get "params" (VDict []) d) = TypeError e ->
  exists body,
    handle_request env bk (VDict d) = Bound body /\
    body s = (Returns tt,
              printed (unexpected_error_response env (dict_get "id" (VStr "unknown") d) e) s).
Proof.
  intros Hr. unfold handle_request, dispatch. rewrite Hr. eexists. split; reflexivity.
Qed.

(** X8. [load_model] and [synthesize_speech] are called with [params]
    expanded into keyword arguments: when [params] is not an object, has a
    key that is no parameter, or lacks the required one ([model_path],
    [text]), the method is not entered; the object and the world are
    untouched and one unexpected-error response with the request's id is
    printed. [get_model_info], [unload_model] and [list_available_models]
    are called without arguments, whatever [params] holds. *)
Theorem keyword_arguments_checked (d : dict) (s : B * World) :
  (dict_get "method" (VStr "") d = VStr "load_model" ->
   kwargs_fit load_model_parameters ["model_path"] (dict_get "params" (VDict []) d) = false ->
   exists e body,
     handle_request env bk (VDict d) = Bound body /\
     body s = (Returns tt,
               printed (unexpected_error_response env
                          (dict_get "id" (VStr "unknown") d) e) s)) /\
  (dict_get "method" (VStr "") d = VStr "synthesize_speech" ->
   kwargs_fit synthesize_speech_parameters ["text"] (dict_get "params" (VDict []) d) = false ->
   exists e body,
     handle_request env bk (VDict d) = Bound body /\
     body s = (Returns tt,
               printed (unexpected_error_response env
                          (dict_get "id" (VStr "unknown") d) e) s)) /\
  (forall params,
     route bk (VStr "get_model_info") params = Bound (bk_get_model_info bk) /\
     route bk (VStr "unload_model") params = Bound (bk_unload_model bk) /\
     route bk (VStr "list_available_models") params = Bound (bk_list_available_models bk)).
Proof.
  split; [|split].
  - intros Hm Hfit.
    destruct (check_names_raises "load_model" _ _ _ Hfit) as [e He].
    destruct (type_error_response d e s) as (body & Hb & Hrun).
    { rewrite Hm. unfold route, call_load_model.
      change (String.eqb "load_model" "load_model") with true. cbv iota.
      unfold load_model_parameters in He. by rewrite He. }
    eauto.
  - intros Hm Hfit.
    destruct (check_names_raises "synthesize_speech" _ _ _ Hfit) as [e He].
    destruct (type_error_response d e s) as (body & Hb & Hrun).
    { rewrite Hm. unfold route, call_synthesize_speech.
      change (String.eqb "synthesize_speech" "load_model") with false.
      change (String.eqb "synthesize_speech" "synthesize_speech") with true. cbv iota.
      unfold synthesize_speech_parameters in He. by rewrite He. }
    eauto.
  - intros params. repeat split; reflexivity.
Qed.

(** X9. A line that parses but is no JSON object ends the loop: reading
    [id] raises inside the [try] and again inside its handler, so after the
    responses to the lines before it the bridge prints one [fatal_error]
    message and returns; the lines behind it are never handled. *)
Theorem non_object_line_ends_loop line request before after p k :
  PyStr.truthy (PyStr.strip line) = true ->
  json_loads env (PyStr.strip line) = Parsed request ->
  is_object request = false ->
  run_lines env bk None before = Bound p ->
  run_lines env bk (Some request) after = Bound k ->
  exists loop,
    main env bk (before ++ line :: after) = Bound loop /\
    forall s s1,
      p (printed (ready_response bk (fst s)) s) = (Returns tt, s1) ->
      loop s = (Returns tt,
                printed (fatal_error_response env "object has no attribute 'get'") s1).
Proof.
  intros Ht Hj Hobj Hp Hk.
  assert (Hline : exists h,
            handle_line env bk (request_after env None before) line = Bound h /\
            forall s : B * World, h s = (Raises "object has no attribute 'get'", s)).
  { unfold handle_line. rewrite Ht, Hj. cbn.
    destruct request; try discriminate; eexists; split; reflexivity. }
  destruct Hline as (h & Hh & Hraise).
  assert (Hn : next_request env (request_after env None before) line = Some request).
  { unfold next_request. by rewrite Ht, Hj. }
  assert (Hq : run_lines env bk (request_after env None before) (line :: after)
               = Bound (h;; k)).
  { cbn [run_lines]. by rewrite Hh, Hn, Hk. }
  destruct (run_lines_app env bk before None (line :: after) p _ Hp Hq) as (r & Hr & Hrun).
  unfold main. rewrite Hr. eexists. split; [reflexivity|].
  intros s s1 Hs. unfold_M. cbn. unfold ready_response, printed in Hs. cbn in Hs.
  rewrite Hrun. unfold_M. rewrite Hs. rewrite Hraise. reflexivity.
Qed.

End Dispatch.

Lemma unknown_method_response_witness :
  dict_get "method" (VStr "") [("id", VStr "3"); ("method", VStr "reload")] = VStr "reload" /\
  ("reload" ∉ method_names) /\
  exists body,
    handle_request Sample.env (real_backend Sample.env)
      (VDict [("id", VStr "3"); ("method", VStr "reload")]) = Bound body /\
    body (Real.init Sample.env, empty_world)
      = (Returns tt,
         printed (VDict [("id", VStr "3"); ("success", VBool false); ("result", VNone);
                         ("error", VStr "Unknown method: reload")])
           (Real.init Sample.env, empty_world)).
Proof.
  assert (Hn : "reload" ∉ method_names).
  { apply (bool_decide_eq_false_1 _). reflexivity. }
  split; [reflexivity|]. split; [exact Hn|].
  apply (unknown_method_response Sample.env (real_backend Sample.env)
           [("id", VStr "3"); ("method", VStr "reload")] "reload"
           (Real.init Sample.env, empty_world));
    [reflexivity | exact Hn].
Defined.

Lemma non_object_line_ends_loop_witness :
  PyStr.truthy (PyStr.strip "17") = true /\
  json_loads Sample.env (PyStr.strip "17") = Parsed (VInt 17) /\
  is_object (VInt 17) = false /\
  exists loop,
    main Sample.env (mock_backend Sample.env) ([] ++ ("17" :: [Sample.line_get_model_info]))
      = Bound loop.
Proof.
  split; [reflexivity|]. split; [reflexivity|]. split; [reflexivity|].
  destruct (non_object_line_ends_loop Sample.env (mock_backend Sample.env)
              "17" (VInt 17) [] [Sample.line_get_model_info] (ret tt)
              (match run_lines Sample.env (mock_backend Sample.env) (Some (VInt 17))
                       [Sample.line_get_model_info] with
               | Bound k => k
               | _ => ret tt
               end))
    as (loop & Hl & _); try reflexivity.
  exists loop. exact Hl.
Defined.

(* ===================================================================== *)
(** * One response per request *)
(* ===================================================================== *)

Lemma real_perform_keeps_stdout env c s r s' :
  perform (real_backend env) c s = (Returns r, s') -> stdout (snd s') = stdout (snd s).
Proof.
  destruct s as [s w]. destruct c as [p cfg spk gpu|t spk lang speed| | |]; cbn.
  - unfold Real.load_model, Real.new_TTS, Real.set_tts_model, Real.set_current_model_path,
      Real.set_model_info.
    unfold_M. cbn.
    repeat (break_match; cbn); intros E; simplify_eq; reflexivity.
  - unfold Real.synthesize_speech, Real.make_temp_file, Real.call_tts_to_file.
    unfold_M. cbn.
    repeat (break_match; cbn in *; simplify_eq); intros E; simplify_eq; reflexivity.
  - unfold Real.get_model_info. unfold_M. cbn.
    destruct (Real.tts_model s); intros E; simplify_eq; reflexivity.
  - unfold Real.unload_model, Real.set_tts_model, Real.set_current_model_path,
      Real.set_model_info.
    unfold_M. cbn.
    repeat (break_match; cbn in *; simplify_eq); intros E; simplify_eq; reflexivity.
  - unfold Real.list_available_models. unfold_M. cbn.
    destruct (list_models env); intros E; simplify_eq; reflexivity.
Qed.

Lemma mock_perform_keeps_stdout env c s r s' :
  perform (mock_backend env) c s = (Returns r, s') -> stdout (snd s') = stdout (snd s).
Proof.
  destruct s as [s w]. destruct c as [p cfg spk gpu|t spk lang speed| | |]; cbn.
  - unfold Mock.load_model, Mock.set_current_model_path, Mock.set_model_info, Mock.now_str.
    unfold_M. cbn.
    destruct (bool_decide (Mock.current_model_path s = Some p)); cbn;
      intros E; simplify_eq; reflexivity.
  - unfold Mock.synthesize_speech. unfold_M. cbn.
    destruct (negb (Mock.path_truthy (Mock.current_model_path s))); cbn.
    + intros E; simplify_eq; reflexivity.
    + destruct (mock_fill_audio_returns env t (seqZ 0 (Z.min (Mock.samples_of t) 1000)) []
                  (s, with_tick w)) as (data' & -> & _); [constructor|].
      intros E; simplify_eq; reflexivity.
  - unfold Mock.get_model_info. unfold_M. cbn.
    destruct (negb (Mock.path_truthy (Mock.current_model_path s)));
      intros E; simplify_eq; reflexivity.
  - unfold Mock.unload_model, Mock.set_current_model_path, Mock.set_model_info.
    unfold_M. cbn.
    destruct (Mock.path_truthy (Mock.current_model_path s)); cbn;
      intros E; simplify_eq; reflexivity.
  - intros E; simplify_eq; reflexivity.
Qed.

Section Framing.
Variable env : Env.
Context {B : Type}.
Variable bk : Backend B.
Hypothesis perform_wf :
  forall c s, exists r s', perform bk c s = (Returns r, s') /\ wf_result r.
Hypothesis perform_keeps_stdout :
  forall c s r s', perform bk c s = (Returns r, s') -> stdout (snd s') = stdout (snd s).

Lemma handle_request_prints_one d body s :
  handle_request env bk (VDict d) = Bound body ->
  exists resp s',
    body s = (Returns tt, s') /\
    stdout (snd s') = stdout (snd s) ++ [VDict resp] /\
    dict_lookup "id" resp = Some (dict_get "id" (VStr "unknown") d).
Proof.
  intros E.
  destruct (handle_request_response env bk perform_wf d body s E)
    as (resp & s1 & Hrun & _ & _ & _ &
        [(call & result & Hroute & Hcall & Henv)|(e & _ & -> & Hid & _)]).
  - exists resp, (fst s1, with_print (VDict resp) (snd s1)).
    split; [exact Hrun|]. split; [|by destruct Henv].
    cbn. f_equal.
    destruct (route_cases bk _ _ call Hroute) as [[c ->]|[m ->]].
    + exact (perform_keeps_stdout c s result s1 Hcall).
    + unfold_M. by simplify_eq.
  - exists resp, (fst s, with_print (VDict resp) (snd s)). auto.
Qed.

End Framing.

(** X10. For a request object, in either bridge, handling the request
    adds exactly one object to standard output (the called method prints
    nothing itself), and that response carries the request's [id], or
    "unknown" when the request has none. *)
Theorem one_response_with_request_id env (d : dict) :
  (forall body s,
     handle_request env (real_backend env) (VDict d) = Bound body ->
     exists resp s',
       body s = (Returns tt, s') /\
       stdout (snd s') = stdout (snd s) ++ [VDict resp] /\
       dict_lookup "id" resp = Some (dict_get "id" (VStr "unknown") d)) /\
  (forall body s,
     handle_request env (mock_backend env) (VDict d) = Bound body ->
     exists resp s',
       body s = (Returns tt, s') /\
       stdout (snd s') = stdout (snd s) ++ [VDict resp] /\
       dict_lookup "id" resp = Some (dict_get "id" (VStr "unknown") d)).
Proof.
  split; intros body s E.
  - exact (handle_request_prints_one env (real_backend env) (real_perform_wf env)
             (real_perform_keeps_stdout env) d body s E).
  - exact (handle_request_prints_one env (mock_backend env) (mock_perform_wf env)
             (mock_perform_keeps_stdout env) d body s E).
Qed.

Lemma one_response_with_request_id_witness :
  exists body resp s',
    handle_request Sample.env (mock_backend Sample.env)
      (VDict [("method", VStr "unload_model")]) = Bound body /\
    body (Mock.init, empty_world) = (Returns tt, s') /\
    stdout (snd s') = stdout empty_world ++ [VDict resp] /\
    dict_lookup "id" resp = Some (VStr "unknown").
Proof.
  eexists.
  destruct (proj2 (one_response_with_request_id Sample.env
                     [("method", VStr "unload_model")])
              _ (Mock.init, empty_world) eq_refl)
    as (resp & s' & E & Hout & Hid).
  exists resp, s'. split; [reflexivity|]. auto.
Defined.

(* ===================================================================== *)
(** * The mock: generated bytes and model information *)
(* ===================================================================== *)

Lemma mock_fill_audio_pattern env text indices : forall data s,
  Mock.fill_audio env text indices data s
    = (Returns (data ++ map (fun i => (i + hash env text) mod 256) indices), s).
Proof.
  induction indices as [|i rest IH]; intros data s; cbn.
  - unfold_M. by rewrite app_nil_r.
  - unfold Mock.bytearray_append. unfold_M.
    assert (Hr : 0 <= (i + hash env text) mod 256 < 256) by (apply Z.mod_pos_bound; lia).
    destruct ((0 <=? (i + hash env text) mod 256) && ((i + hash env text) mod 256 <? 256)) eqn:E;
      [|lia].
    rewrite IH. by rewrite <- app_assoc.
Qed.

Lemma mock_sample_count text :
  Z.min (Mock.samples_of text) 1000 = mock_audio_size text.
Proof.
  destruct text as [|c text]; [reflexivity|].
  pose proof (samples_of_nonempty (String c text)) as H.
  unfold PyStr.len in H at 1. cbn [String.length] in H. cbn [mock_audio_size]. lia.
Qed.

Lemma mock_pattern_lookup env text count i :
  0 <= i < count -> mock_pattern env text count !! Z.to_nat i = Some ((i + hash env text) mod 256).
Proof.
  intros Hi. unfold mock_pattern. rewrite list_lookup_fmap.
  rewrite (lookup_seqZ_lt 0 count (Z.to_nat i)) by lia. cbn. do 2 f_equal. lia.
Qed.

(** X11. The audio of the mock is no recording but a counter: for a text
    with a model loaded, byte number [i] of the decoded [audio_data] is
    [(i + hash(text)) mod 256]. So two non-empty texts get the same audio
    exactly when their hashes agree modulo 256, whatever the texts say. *)
Theorem mock_audio_is_counter env text spk lang speed s w :
  Mock.path_truthy (Mock.current_model_path s) = true ->
  (exists r w',
     Mock.synthesize_speech env text spk lang speed (s, w) = (Returns r, (s, w')) /\
     dict_lookup "audio_data" r
       = Some (VStr (Base64.b64encode (mock_pattern env text (mock_audio_size text)))) /\
     Base64.b64decode (Base64.b64encode (mock_pattern env text (mock_audio_size text)))
       = Some (mock_pattern env text (mock_audio_size text))) /\
  (forall i, 0 <= i < mock_audio_size text ->
     mock_pattern env text (mock_audio_size text) !! Z.to_nat i
       = Some ((i + hash env text) mod 256)) /\
  (forall text', text <> EmptyString -> text' <> EmptyString ->
     (mock_pattern env text (mock_audio_size text)
        = mock_pattern env text' (mock_audio_size text') <->
      hash env text mod 256 = hash env text' mod 256)).
Proof.
  intros Hloaded. split; [|split].
  - unfold Mock.synthesize_speech. unfold_M. cbn. rewrite Hloaded. cbn.
    rewrite mock_fill_audio_pattern, mock_sample_count. cbn.
    do 2 eexists. split; [reflexivity|]. split; [reflexivity|].
    apply b64_roundtrip. unfold mock_pattern. apply Forall_fmap, Forall_forall.
    intros i _. cbn. apply Z.mod_pos_bound. lia.
  - intros i Hi. by apply mock_pattern_lookup.
  - intros text' Ht Ht'.
    destruct text as [|c t]; [done|]. destruct text' as [|c' t']; [done|].
    cbn [mock_audio_size]. split.
    + intros Heq.
      pose proof (mock_pattern_lookup env (String c t) 1000 0 ltac:(lia)) as H1.
      pose proof (mock_pattern_lookup env (String c' t') 1000 0 ltac:(lia)) as H2.
      rewrite Heq in H1. rewrite H1 in H2. clear Heq H1.
      injection H2 as H2. by rewrite !Z.add_0_l in H2.
    + intros Heq. unfold mock_pattern. apply map_ext. intros i.
      rewrite (Z.add_mod i (hash env (String c t))) by lia.
      rewrite (Z.add_mod i (hash env (String c' t'))) by lia.
      by rewrite Heq.
Qed.

Lemma mock_audio_is_counter_witness :
  Mock.path_truthy (Mock.current_model_path (fst Sample.mock_loaded_a)) = true /\
  mock_pattern Sample.env "hello" (mock_audio_size "hello") !! Z.to_nat 3
    = Some ((3 + hash Sample.env "hello") mod 256).
Proof.
  split; [reflexivity|].
  destruct (mock_audio_is_counter Sample.env "hello" None "bn" (VFloat PyFloat.f_1_0)
              (fst Sample.mock_loaded_a) (snd Sample.mock_loaded_a) eq_refl)
    as (_ & Hbyte & _).
  apply (Hbyte 3). cbn. lia.
Defined.

(** X12. When the mock's [load_model] loads a path that was not the stored
    one it always succeeds and touches neither files nor the library; the
    stored [model_info] says device "cpu" and [use_gpu] false whatever
    [use_gpu] was asked for, has the path and its base name, and says
    language "bn" exactly when the path contains "bangla" or "bn"
    case-insensitively, "multilingual" otherwise. *)
Theorem mock_load_records env X cfg spk gpu s w :
  Mock.current_model_path s <> Some X ->
  exists r s1 w1,
    Mock.load_model env X cfg spk gpu (s, w) = (Returns r, (s1, w1)) /\
    succeeded r = true /\
    Mock.current_model_path s1 = Some X /\
    fs w1 = fs w /\ trace w1 = trace w /\
    dict_lookup "device" (Mock.model_info s1) = Some (VStr "cpu") /\
    dict_lookup "use_gpu" (Mock.model_info s1) = Some (VBool false) /\
    dict_lookup "path" (Mock.model_info s1) = Some (VStr X) /\
    dict_lookup "name" (Mock.model_info s1) = Some (VStr (PyStr.basename X)) /\
    ((ci_contains "bangla" X \/ ci_contains "bn" X) ->
     dict_lookup "language" (Mock.model_info s1) = Some (VStr "bn")) /\
    (~ (ci_contains "bangla" X \/ ci_contains "bn" X) ->
     dict_lookup "language" (Mock.model_info s1) = Some (VStr "multilingual")).
Proof.
  intros Hcur.
  unfold Mock.load_model, Mock.set_current_model_path, Mock.set_model_info, Mock.now_str.
  unfold_M. cbn. rewrite (bool_decide_eq_false_2 _ Hcur). cbn.
  do 3 eexists. split; [reflexivity|]. cbn.
  repeat (split; [reflexivity|]).
  rewrite <- !contains_lower_spec, <- orb_true_iff.
  split; intros H.
  - change (dict_lookup "language" ?d) with
      (Some (VStr (if PyStr.contains "bangla" (PyStr.lower X) ||
                      PyStr.contains "bn" (PyStr.lower X)
                   then "bn" else "multilingual"))).
    by rewrite H.
  - apply not_true_is_false in H.
    change (dict_lookup "language" ?d) with
      (Some (VStr (if PyStr.contains "bangla" (PyStr.lower X) ||
                      PyStr.contains "bn" (PyStr.lower X)
                   then "bn" else "multilingual"))).
    by rewrite H.
Qed.

Lemma mock_load_records_witness :
  Mock.current_model_path Mock.init <> Some "/models/Bangla-v1.pth" /\
  exists r s1 w1,
    Mock.load_model Sample.env "/models/Bangla-v1.pth" None None true (Mock.init, empty_world)
      = (Returns r, (s1, w1)) /\
    dict_lookup "use_gpu" (Mock.model_info s1) = Some (VBool false).
Proof.
  split; [discriminate|].
  destruct (mock_load_records Sample.env "/models/Bangla-v1.pth" None None true Mock.init
              empty_world)
    as (r & s1 & w1 & E & _ & _ & _ & _ & _ & Hgpu & _); [discriminate|].
  exists r, s1, w1. auto.
Defined.

(* ===================================================================== *)
(** * Loading and unloading in sequence *)
(* ===================================================================== *)

(** X13. Loading and then unloading brings a bridge with nothing loaded
    back to where it was, whether the load succeeded or failed: always in
    the real bridge, and in the mock for every path but the empty one.
    After the mock loaded the empty path, [unload_model] clears nothing and
    the path and its [model_info] stay. *)
Theorem load_then_unload_restores env X cfg spk gpu :
  (forall s w, s = real_cleared s ->
     fst (exec (real_backend env) [LoadModel X cfg spk gpu; UnloadModel] (s, w)) = s) /\
  (forall s w, s = mock_cleared s -> X <> EmptyString ->
     fst (exec (mock_backend env) [LoadModel X cfg spk gpu; UnloadModel] (s, w)) = s) /\
  (forall s w, s = mock_cleared s ->
     Mock.current_model_path
       (fst (exec (mock_backend env) [LoadModel "" cfg spk gpu; UnloadModel] (s, w)))
     = Some EmptyString).
Proof.
  split; [|split].
  - intros s w Hs. cbn.
    destruct (real_load_model_cases env X cfg spk gpu s w)
      as (r & s' & w' & -> & [[_ ->]|[(_ & -> & _)|(_ & m & info & _ & ->)]]); cbn.
    + destruct (real_unload_model_cases env s w') as (r' & w'' & -> & _). cbn.
      rewrite Hs. reflexivity.
    + destruct (real_unload_model_cases env s w') as (r' & w'' & -> & _). cbn.
      rewrite Hs. reflexivity.
    + match goal with
      | |- context [Real.unload_model env (?b, w')] =>
          destruct (real_unload_model_cases env b w') as (r' & w'' & -> & _)
      end. cbn. rewrite Hs. reflexivity.
  - intros s w Hs HX. cbn.
    destruct (mock_load_model_cases env X cfg spk gpu s w)
      as (r & s' & w' & -> & _ & [(-> & _ & _ & Hp)|(info & _ & ->)]); cbn.
    + rewrite Hs in Hp. discriminate.
    + match goal with
      | |- context [Mock.unload_model (?b, w')] =>
          destruct (mock_unload_model_cases b w') as (r' & -> & _)
      end. cbn. destruct X; [done|]. cbn. rewrite Hs. reflexivity.
  - intros s w Hs. cbn.
    destruct (mock_load_model_cases env "" cfg spk gpu s w)
      as (r & s' & w' & -> & _ & [(-> & _ & _ & Hp)|(info & _ & ->)]); cbn.
    + rewrite Hs in Hp. discriminate.
    + match goal with
      | |- context [Mock.unload_model (?b, w')] =>
          destruct (mock_unload_model_cases b w') as (r' & -> & _)
      end. reflexivity.
Qed.

(** X14. Only [load_model] and [unload_model] change the bridge object.
    [synthesize_speech] leaves it as it is on every path, and
    [get_model_info] and [list_available_models] change neither the
    object nor the world, in both bridges, also when the catalog cannot be
    listed. *)
Theorem queries_keep_model_state env s w :
  (forall t spk lang speed,
     fst (snd (Real.synthesize_speech env t spk lang speed (s, w))) = s) /\
  snd (Real.get_model_info (s, w)) = (s, w) /\
  snd (Real.list_available_models env (s, w)) = (s, w) /\
  (forall e, list_models env = Raises e ->
     fst (Real.list_available_models env (s, w))
       = Returns (failure "Failed to list models: " e None)) /\
  (forall sm t spk lang speed,
     fst (snd (Mock.synthesize_speech env t spk lang speed (sm, w))) = sm) /\
  (forall sm, snd (Mock.get_model_info (sm, w)) = (sm, w)) /\
  (forall sm, snd (Mock.list_available_models (sm, w)) = (sm, w)).
Proof.
  split; [|split; [|split; [|split; [|split; [|split]]]]].
  - intros. by destruct (real_synthesize_speech_keeps_self env t spk lang speed s w)
      as (r & w' & ->).
  - by destruct (real_get_model_info_keeps_state s w) as (r & ->).
  - by destruct (real_list_available_models_keeps_state env s w) as (r & ->).
  - intros e He. unfold Real.list_available_models. unfold_M. by rewrite He.
  - intros. by destruct (mock_synthesize_speech_keeps_self env t spk lang speed sm w)
      as (r & w' & ->).
  - intros. by destruct (mock_get_model_info_keeps_state sm w) as (r & ->).
  - intros. by destruct (mock_list_available_models_keeps_state sm w) as (r & ->).
Qed.

(* ===================================================================== *)
(** * What main prints *)
(* ===================================================================== *)

Section MainOutput.
Variable env : Env.
Context {B : Type}.
Variable bk : Backend B.
Hypothesis perform_wf :
  forall c s, exists r s', perform bk c s = (Returns r, s') /\ wf_result r.
Hypothesis perform_keeps_stdout :
  forall c s r s', perform bk c s = (Returns r, s') -> stdout (snd s') = stdout (snd s).

Lemma handle_line_output request line h s :
  handle_line env bk request line = Bound h ->
  exists o s' out,
    h s = (o, s') /\ stdout (snd s') = stdout (snd s) ++ out /\
    match o with
    | Returns _ => (length out <= 1)%nat
    | Raises _ => out = []
    end.
Proof.
  unfold handle_line.
  destruct (negb (PyStr.truthy (PyStr.strip line))).
  { intros E; simplify_eq. exists (Returns tt), s, []. rewrite app_nil_r. cbn. auto. }
  destruct (json_loads env (PyStr.strip line)) as [request'|e|e].
  - destruct request' as [| | | | | |d].
    7: { intros E.
         destruct (handle_request_prints_one env bk perform_wf perform_keeps_stdout d h s E)
           as (resp & s' & Hrun & Hout & _).
         exists (Returns tt), s', [VDict resp]. cbn. auto. }
    all: intros E; cbn in E; simplify_eq;
      eexists (Raises _), s, []; rewrite app_nil_r; split; [reflexivity|]; auto.
  - intros E; simplify_eq. eexists (Returns tt), _, [_]. split; [reflexivity|]. cbn. auto.
  - intros E; simplify_eq. destruct request as [[| | | | | |d]|].
    7, 8: eexists (Returns tt), _, [_]; split; [reflexivity|]; cbn; auto.
    all: eexists (Raises _), s, []; rewrite app_nil_r; split; [reflexivity|]; auto.
Qed.

Lemma run_lines_output lines : forall request loop s,
  run_lines env bk request lines = Bound loop ->
  exists o s' out,
    loop s = (o, s') /\ stdout (snd s') = stdout (snd s) ++ out /\
    match o with
    | Returns _ => (length out <= length lines)%nat
    | Raises _ => (length out < length lines)%nat
    end.
Proof.
  induction lines as [|line rest IH]; intros request loop s E; cbn in E.
  - simplify_eq. exists (Returns tt), s, []. rewrite app_nil_r. cbn. auto.
  - destruct (handle_line env bk request line) as [h| |] eqn:Hh;
      destruct (run_lines env bk (next_request env request line) rest) as [k| |] eqn:Hk;
      simplify_eq.
    destruct (handle_line_output request line h s Hh)
      as (o1 & s1 & out1 & Hrun1 & Hout1 & Hlen1).
    destruct o1 as [[]|e].
    + destruct (IH _ k s1 Hk) as (o2 & s2 & out2 & Hrun2 & Hout2 & Hlen2).
      exists o2, s2, (out1 ++ out2). split; [unfold_M; by rewrite Hrun1|].
      split; [by rewrite Hout2, Hout1, app_assoc|].
      rewrite length_app. cbn [length]. destruct o2; lia.
    + subst out1. exists (Raises e), s1, []. split; [unfold_M; by rewrite Hrun1|].
      split; [exact Hout1|]. cbn. lia.
Qed.

Lemma main_output lines loop s :
  main env bk lines = Bound loop ->
  exists s' out,
    loop s = (Returns tt, s') /\
    stdout (snd s') = stdout (snd s) ++ ready_response bk (fst s) :: out /\
    (length out <= length lines)%nat.
Proof.
  unfold main. destruct (run_lines env bk None lines) as [body| |] eqn:Hbody;
    intros E; simplify_eq.
  destruct (run_lines_output lines None body (printed (ready_response bk (fst s)) s) Hbody)
    as (o & s1 & out & Hrun & Hout & Hlen).
  unfold printed, ready_response in Hrun, Hout. cbn in Hrun, Hout.
  destruct o as [[]|e].
  - exists s1, out. split; [unfold_M; cbn; by rewrite Hrun|].
    split; [|exact Hlen]. rewrite Hout, <- app_assoc. reflexivity.
  - eexists _, (out ++ [_]). split; [unfold_M; cbn; rewrite Hrun; reflexivity|].
    split; [cbn; rewrite Hout, <- !app_assoc; reflexivity|].
    rewrite length_app. cbn. lia.
Qed.

End MainOutput.

(** X15. [main], in either bridge and for any input, does not raise: it
    prints the ready message first, carrying the bridge's [device], and
    after it at most one object per input line (a [fatal_error] message
    takes the place of the response to the line that ended the loop). *)
Theorem main_prints_ready_then_one_per_line env (lines : list string) :
  (forall loop s,
     main env (real_backend env) lines = Bound loop ->
     exists s' out,
       loop s = (Returns tt, s') /\
       stdout (snd s')
         = stdout (snd s) ++ ready_response (real_backend env) (fst s) :: out /\
       (length out <= length lines)%nat) /\
  (forall loop s,
     main env (mock_backend env) lines = Bound loop ->
     exists s' out,
       loop s = (Returns tt, s') /\
       stdout (snd s')
         = stdout (snd s) ++ ready_response (mock_backend env) (fst s) :: out /\
       (length out <= length lines)%nat).
Proof.
  split; intros loop s E.
  - exact (main_output env (real_backend env) (real_perform_wf env)
             (real_perform_keeps_stdout env) lines loop s E).
  - exact (main_output env (mock_backend env) (mock_perform_wf env)
             (mock_perform_keeps_stdout env) lines loop s E).
Qed.

Lemma main_prints_ready_then_one_per_line_witness :
  exists loop s' out,
    main Sample.env (mock_backend Sample.env) ["   "; "{bad json"; "17"] = Bound loop /\
    loop (Mock.init, empty_world) = (Returns tt, s') /\
    stdout (snd s')
      = stdout empty_world ++ ready_response (mock_backend Sample.env) Mock.init :: out /\
    (length out <= 3)%nat.
Proof.
  eexists.
  destruct (proj2 (main_prints_ready_then_one_per_line Sample.env
                     ["   "; "{bad json"; "17"])
              _ (Mock.init, empty_world) eq_refl)
    as (s' & out & Hrun & Hout & Hlen).
  exists s', out. split; [reflexivity|]. auto.
Defined.
